(** * review-rot: the shared review record, its time filter and its renderers

    A shallow embedding of [reviewrot/basereview.py]: the time-window filter
    [BaseService.check_request_state], the recency check
    [BaseService.has_new_comments], and [BaseReview] with [format_duration]
    and the four output styles.

    The Python run-time the module relies on is embedded first: naive
    [datetime] values and [timedelta] arithmetic, binary64 floats (through
    the Standard Library's [SpecFloat]), [dateutil]'s [relativedelta] of two
    datetimes, and [json.dumps] with [indent=2]. *)

From Stdlib Require Import ZArith List String Ascii Bool Lia.
From Stdlib Require Import DecimalString.
From Stdlib Require Import Floats.SpecFloat.
Import ListNotations.

Local Open Scope string_scope.
Local Open Scope Z_scope.

(** ** Python values used by the module *)

Module Py.

(** [str(n)] for an [int]: decimal digits, a leading minus sign when
    negative. *)
Definition str_of_int (n : Z) : string :=
  NilZero.string_of_int (Z.to_int n).

(** [sep.join(parts)]. *)
Fixpoint join (sep : string) (parts : list string) : string :=
  match parts with
  | [] => ""
  | [p] => p
  | p :: rest => p ++ sep ++ join sep rest
  end.

(** Exceptions the module raises: [ValueError(msg)] from the filter and
    [KeyError(key)] from the style lookup. *)
Inductive exn : Type :=
| ValueError (msg : string)
| KeyError (key : string).

Inductive result (A : Type) : Type :=
| Ok (a : A)
| Raise (e : exn).
Arguments Ok {A} a.
Arguments Raise {A} e.

(** Truth value of an optional [int] argument: [None] and [0] are false. *)
Definition truthy_int (x : option Z) : bool :=
  match x with
  | None => false
  | Some n => negb (n =? 0)
  end.

(** Truth value of a list: the empty list is false. *)
Definition truthy_list {A : Type} (xs : list A) : bool :=
  match xs with
  | [] => false
  | _ :: _ => true
  end.

(** Truth value of an optional object whose instances are always true
    (a [datetime], a non-empty named tuple). *)
Definition truthy_obj {A : Type} (x : option A) : bool :=
  match x with
  | None => false
  | Some _ => true
  end.

End Py.

(** ** [datetime] and [timedelta] *)

Module Datetime.

(** A naive [datetime.datetime]. *)
Record datetime : Type := mkdatetime {
  year : Z; month : Z; day : Z;
  hour : Z; minute : Z; second : Z; microsecond : Z
}.

(** A normalised [datetime.timedelta]: [0 <= seconds < 86400] and
    [0 <= microseconds < 10**6]; [days] carries the sign. *)
Record timedelta : Type := mktimedelta {
  days : Z; seconds : Z; microseconds : Z
}.

Definition _is_leap (y : Z) : bool :=
  (y mod 4 =? 0) && (negb (y mod 100 =? 0) || (y mod 400 =? 0)).

Definition _DAYS_IN_MONTH (m : Z) : Z :=
  match m with
  | 1 => 31 | 2 => 28 | 3 => 31 | 4 => 30 | 5 => 31 | 6 => 30
  | 7 => 31 | 8 => 31 | 9 => 30 | 10 => 31 | 11 => 30 | 12 => 31
  | _ => -1
  end.

Definition _DAYS_BEFORE_MONTH (m : Z) : Z :=
  match m with
  | 1 => 0 | 2 => 31 | 3 => 59 | 4 => 90 | 5 => 120 | 6 => 151
  | 7 => 181 | 8 => 212 | 9 => 243 | 10 => 273 | 11 => 304 | 12 => 334
  | _ => -1
  end.

Definition _days_before_year (y : Z) : Z :=
  let y' := y - 1 in
  y' * 365 + y' / 4 - y' / 100 + y' / 400.

Definition _days_in_month (y m : Z) : Z :=
  if (m =? 2) && _is_leap y then 29 else _DAYS_IN_MONTH m.

Definition _days_before_month (y m : Z) : Z :=
  _DAYS_BEFORE_MONTH m + (if (2 <? m) && _is_leap y then 1 else 0).

Definition _ymd2ord (y m d : Z) : Z :=
  _days_before_year y + _days_before_month y m + d.

Definition toordinal (t : datetime) : Z :=
  _ymd2ord (year t) (month t) (day t).

(** The end of [_ord2ymd]: month and day of the [n]-th day (from 0) of a
    year, found from the estimate [(n + 50) >> 5] of the month. *)
Definition _month_day (leapyear : bool) (n : Z) : Z * Z :=
  let m := Z.shiftr (n + 50) 5 in
  let preceding :=
    _DAYS_BEFORE_MONTH m + (if (2 <? m) && leapyear then 1 else 0) in
  if n <? preceding then
    let m := m - 1 in
    let preceding :=
      preceding - (_DAYS_IN_MONTH m + (if (m =? 2) && leapyear then 1 else 0)) in
    (m, n - preceding + 1)
  else (m, n - preceding + 1).

(** [_ord2ymd]: the date of proleptic Gregorian ordinal [n]. *)
Definition _ord2ymd (n : Z) : Z * Z * Z :=
  let n := n - 1 in
  let n400 := n / 146097 in
  let n := n mod 146097 in
  let y := n400 * 400 + 1 in
  let n100 := n / 36524 in
  let n := n mod 36524 in
  let n4 := n / 1461 in
  let n := n mod 1461 in
  let n1 := n / 365 in
  let n := n mod 365 in
  let y := y + n100 * 100 + n4 * 4 + n1 in
  if (n1 =? 4) || (n100 =? 4) then (y - 1, 12, 31)
  else
    let leapyear := (n1 =? 3) && (negb (n4 =? 24) || (n100 =? 3)) in
    let '(m, d) := _month_day leapyear n in
    (y, m, d).

(** The [timedelta(days, seconds, microseconds)] constructor: carries
    microseconds into seconds and seconds into days with floor division. *)
Definition timedelta_new (d s us : Z) : timedelta :=
  let s := s + us / 1000000 in
  let us := us mod 1000000 in
  let d := d + s / 86400 in
  let s := s mod 86400 in
  mktimedelta d s us.

Definition seconds_of_day (t : datetime) : Z :=
  second t + minute t * 60 + hour t * 3600.

(** [a - b] for two datetimes. *)
Definition sub (a b : datetime) : timedelta :=
  timedelta_new (toordinal a - toordinal b)
                (seconds_of_day a - seconds_of_day b)
                (microsecond a - microsecond b).

Definition _MAXORDINAL : Z := 3652059.

(** [t - timedelta(days=n)]: [None] stands for [OverflowError]. *)
Definition sub_days (t : datetime) (n : Z) : option datetime :=
  let delta := timedelta_new (toordinal t - n) (seconds_of_day t) (microsecond t) in
  let h := seconds delta / 3600 in
  let rem := seconds delta mod 3600 in
  if (0 <? days delta) && (days delta <=? _MAXORDINAL) then
    let '(y, m, d) := _ord2ymd (days delta) in
    Some (mkdatetime y m d h (rem / 60) (rem mod 60) (microseconds delta))
  else None.

(** Lexicographic comparison of the field tuples, as [datetime._cmp]. *)
Fixpoint cmp_tuple (xs ys : list Z) : comparison :=
  match xs, ys with
  | x :: xs', y :: ys' =>
      match x ?= y with
      | Eq => cmp_tuple xs' ys'
      | c => c
      end
  | [], [] => Eq
  | [], _ :: _ => Lt
  | _ :: _, [] => Gt
  end.

Definition fields (t : datetime) : list Z :=
  [year t; month t; day t; hour t; minute t; second t; microsecond t].

Definition cmp (a b : datetime) : comparison := cmp_tuple (fields a) (fields b).

Definition lt (a b : datetime) : bool :=
  match cmp a b with Lt => true | _ => false end.

Definition gt (a b : datetime) : bool :=
  match cmp a b with Gt => true | _ => false end.

(** Total number of microseconds of a [timedelta]. *)
Definition to_microseconds (d : timedelta) : Z :=
  (days d * 86400 + seconds d) * 1000000 + microseconds d.

(** The field ranges every [datetime] object satisfies. *)
Definition valid (t : datetime) : Prop :=
  1 <= year t <= 9999 /\ 1 <= month t <= 12 /\
  1 <= day t <= _days_in_month (year t) (month t) /\
  0 <= hour t < 24 /\ 0 <= minute t < 60 /\ 0 <= second t < 60 /\
  0 <= microsecond t < 1000000.

End Datetime.

(** ** Python [float]: IEEE 754 binary64 *)

Module Float.

Definition prec : Z := 53.
Definition emax : Z := 1024.

Definition float : Type := spec_float.

(** [float(n)] for an [int]: the nearest binary64 value. *)
Definition of_int (n : Z) : float := binary_normalize prec emax n 0 false.

(** Correctly rounded quotient of two positive integers, with sign [s]. *)
Definition round_quotient (s : bool) (a b : positive) : float :=
  let '(mz, ez, lz) := SFdiv_core_binary prec emax (Zpos a) 0 (Zpos b) 0 in
  binary_round_aux prec emax s mz ez lz.

(** [a / b] for two [int]s under true division, [b] positive: the binary64
    value nearest to the exact quotient. *)
Definition int_truediv (a : Z) (b : positive) : float :=
  match a with
  | Z0 => S754_zero false
  | Zpos p => round_quotient false p b
  | Zneg p => round_quotient true p b
  end.

(** [x / n] for a [float] and an [int]: [n] is converted, then IEEE
    division. *)
Definition div_int (x : float) (n : Z) : float :=
  SFdiv prec emax x (of_int n).

(** Comparison of a [float] with an [int]: Python compares the two exact
    values; a NaN compares with nothing. *)
Definition cmp_int (x : float) (n : Z) : option comparison :=
  match x with
  | S754_nan => None
  | S754_infinity s => Some (if s then Lt else Gt)
  | S754_zero _ => Some (0 ?= n)
  | S754_finite s m e =>
      let v := if s then Zneg m else Zpos m in
      Some (if 0 <=? e then v * 2 ^ e ?= n else v ?= n * 2 ^ (- e))
  end.

(** [x < n]. *)
Definition lt_int (x : float) (n : Z) : bool :=
  match cmp_int x n with Some Lt => true | _ => false end.

(** [x >= n]. *)
Definition ge_int (x : float) (n : Z) : bool :=
  match cmp_int x n with Some Gt | Some Eq => true | _ => false end.

Definition is_nan (x : float) : bool :=
  match x with S754_nan => true | _ => false end.

(** [timedelta.total_seconds()]: the microsecond count divided by [10**6]. *)
Definition total_seconds (d : Datetime.timedelta) : float :=
  int_truediv (Datetime.to_microseconds d) 1000000.

End Float.

(** ** [dateutil.relativedelta.relativedelta(dt1, dt2)] *)

Module Dateutil.
Import Datetime.

(** The relative fields of a [relativedelta]; the absolute fields
    ([year], [month], ..., [weekday]) and [leapdays] stay unset when
    the object is built from two datetimes. *)
Record t : Type := mk {
  years : Z; months : Z; days : Z; hours : Z; minutes : Z;
  seconds : Z; microseconds : Z
}.

(** [_sign(x)]: [int(copysign(1, x))]. *)
Definition _sign (x : Z) : Z := if x <? 0 then -1 else 1.

(** [_set_months]: the pair [(years, months)] it assigns. *)
Definition _set_months (m : Z) : Z * Z :=
  if 11 <? Z.abs m then
    let s := _sign m in
    (((m * s) / 12) * s, ((m * s) mod 12) * s)
  else (0, m).

(** [calendar.monthrange(year, month)[1]]. *)
Definition monthrange (y m : Z) : Z := _days_in_month y m.

(** [dt + self] while [self] holds only [years] and [months]: the year
    and month are moved, the day is clipped to the month's length, and the
    timedelta that is added has all its fields zero. *)
Definition __radd__ (yrs mons : Z) (dt : datetime) : datetime :=
  let y := year dt + yrs in
  let m := month dt in
  let '(y, m) :=
    if mons =? 0 then (y, m)
    else
      let m := m + mons in
      if 12 <? m then (y + 1, m - 12)
      else if m <? 1 then (y - 1, m + 12)
      else (y, m) in
  let d := Z.min (monthrange y m) (day dt) in
  mkdatetime y m d (hour dt) (minute dt) (second dt) (microsecond dt).

(** [dt2] moved by [months] months. *)
Definition shifted (dt2 : datetime) (months : Z) : datetime :=
  let '(y, m) := _set_months months in __radd__ y m dt2.

(** The loop [while compare(dt1, dtm): months += increment; ...]; it runs
    at most [fuel] times. *)
Fixpoint adjust (fuel : nat) (compare : datetime -> datetime -> bool)
         (increment : Z) (dt1 dt2 : datetime) (months : Z) : Z :=
  match fuel with
  | O => months
  | S fuel' =>
      if compare dt1 (shifted dt2 months) then
        adjust fuel' compare increment dt1 dt2 (months + increment)
      else months
  end.

(** One step of [_fix]: when [abs(lo) > limit], move the whole multiples
    of [base] from [lo] into [hi], keeping the sign of [lo]. *)
Definition carry (limit base lo hi : Z) : Z * Z :=
  if limit <? Z.abs lo then
    let s := _sign lo in
    (((lo * s) mod base) * s, hi + ((lo * s) / base) * s)
  else (lo, hi).

Definition _fix (r : t) : t :=
  let '(us, s) := carry 999999 1000000 (microseconds r) (seconds r) in
  let '(s, mi) := carry 59 60 s (minutes r) in
  let '(mi, h) := carry 59 60 mi (hours r) in
  let '(h, d) := carry 23 24 h (days r) in
  let '(mo, y) := carry 11 12 (months r) (years r) in
  mk y mo d h mi s us.

(** [relativedelta(dt1, dt2)]. *)
Definition relativedelta (dt1 dt2 : datetime) : t :=
  let months0 := (year dt1 - year dt2) * 12 + (month dt1 - month dt2) in
  let '(compare, increment) :=
    if lt dt1 dt2 then (gt, 1) else (lt, -1) in
  let months :=
    adjust (S (S (Z.to_nat (Z.abs months0)))) compare increment dt1 dt2 months0 in
  let '(y, m) := _set_months months in
  let dtm := __radd__ y m dt2 in
  let delta := sub dt1 dtm in
  _fix (mk y m 0 0 0
           (Datetime.seconds delta + Datetime.days delta * 86400)
           (Datetime.microseconds delta)).

End Dateutil.

(** ** [json.dumps(obj, indent=2)] *)

Module Json.

#[local] Set Warnings "-register-all".

(** The JSON values [BaseReview.__json__] builds. A dictionary keeps its
    items in insertion order. [JFloat n] is the whole-valued float [n.0]
    that [time.mktime] returns. *)
Inductive value : Type :=
| JNull
| JString (s : string)
| JInt (n : Z)
| JFloat (n : Z)
| JDict (items : list (string * value)).

(** Dictionary access: [d.get(key)]. *)
Fixpoint get (key : string) (items : list (string * value)) : option value :=
  match items with
  | [] => None
  | (k, v) :: rest => if String.eqb k key then Some v else get key rest
  end.

Definition hex_digit (n : N) : ascii :=
  match n with
  | 0%N => "0" | 1%N => "1" | 2%N => "2" | 3%N => "3" | 4%N => "4"
  | 5%N => "5" | 6%N => "6" | 7%N => "7" | 8%N => "8" | 9%N => "9"
  | 10%N => "a" | 11%N => "b" | 12%N => "c" | 13%N => "d" | 14%N => "e"
  | _ => "f"
  end%char.

(** One character under [ensure_ascii]: the short escapes, the printable
    ASCII range unchanged, everything else as [\u00xx] (a character of a
    [string] here is a code point below 256). *)
Definition escape_char (c : ascii) : string :=
  let n := N_of_ascii c in
  match n with
  | 34%N => "\" ++ String c ""
  | 92%N => "\\"
  | 8%N => "\b"
  | 12%N => "\f"
  | 10%N => "\n"
  | 13%N => "\r"
  | 9%N => "\t"
  | _ =>
      if (32 <=? n)%N && (n <=? 126)%N then String c ""
      else "\u00" ++ String (hex_digit (n / 16)) (String (hex_digit (n mod 16)) "")
  end.

Fixpoint escape (s : string) : string :=
  match s with
  | EmptyString => ""
  | String c rest => escape_char c ++ escape rest
  end.

Definition quote : string := String (ascii_of_N 34) "".

Definition encode_string (s : string) : string := quote ++ escape s ++ quote.

(** [repr] of a whole-valued float below [10**16] in magnitude. *)
Definition float_repr (n : Z) : string := Py.str_of_int n ++ ".0".

Definition newline : string := String (ascii_of_N 10) "".

Fixpoint spaces (n : nat) : string :=
  match n with
  | O => ""
  | S n' => " " ++ spaces n'
  end.

(** A line break followed by the indentation of nesting depth [level]. *)
Definition newline_indent (level : nat) : string :=
  newline ++ spaces (2 * level).

(** The encoder at nesting depth [level], with item separator [","] and
    key separator [": "]. *)
Fixpoint dumps_at (level : nat) (v : value) : string :=
  match v with
  | JNull => "null"
  | JString s => encode_string s
  | JInt n => Py.str_of_int n
  | JFloat n => float_repr n
  | JDict [] => "{}"
  | JDict items =>
      "{" ++ newline_indent (S level)
      ++ Py.join ("," ++ newline_indent (S level))
           (map (fun kv => encode_string (fst kv) ++ ": " ++ dumps_at (S level) (snd kv))
                items)
      ++ newline_indent level ++ "}"
  end.

Definition dumps (v : value) : string := dumps_at 0 v.

End Json.

(** ** [reviewrot/basereview.py] *)

Module Basereview.
Import Py Datetime.

(** What the module reads from its platform: the UTC wall clock
    ([datetime.utcnow()]), the local wall clock ([datetime.now()]), each
    as the value of its [k]-th reading, and the local-time epoch
    conversion behind [time.mktime(t.timetuple())], in whole seconds. *)
Record Platform : Type := mkPlatform {
  utc_clock : nat -> datetime;
  local_clock : nat -> datetime;
  mktime : datetime -> Z
}.

(** A computation that reads the clocks and may raise: it takes the
    number of clock readings made so far and returns the new count. *)
Definition M (A : Type) : Type := nat -> result A * nat.

Definition ret {A : Type} (a : A) : M A := fun k => (Ok a, k).

Definition raise {A : Type} (e : exn) : M A := fun k => (Raise e, k).

Definition bind {A B : Type} (m : M A) (f : A -> M B) : M B :=
  fun k =>
    match m k with
    | (Ok a, k') => f a k'
    | (Raise e, k') => (Raise e, k')
    end.

Notation "x <- m ;; f" := (bind m (fun x => f))
  (at level 61, m at next level, right associativity).

(** [LastComment = namedtuple('LastComment', ('author', 'body', 'created_at'))] *)
Record LastComment : Type := mkLastComment {
  author : string;
  body : string;
  created_at : datetime
}.

(** The attributes of a [BaseReview]; [class_name] is
    [type(self).__name__], the name of the platform subclass. *)
Record BaseReview : Type := mkBaseReview {
  class_name : string;
  user : string;
  title : string;
  url : string;
  time : datetime;
  comments : Z;
  image : option string;
  last_comment : option LastComment;
  project_name : option string;
  project_url : option string
}.

(** [x in ('older', 'newer')] and the like. *)
Definition in_ (x : string) (xs : list string) : bool :=
  existsb (String.eqb x) xs.

(** The control characters of the IRC style. *)
Definition x02 : string := String (ascii_of_N 2) "".
Definition x03 : string := String (ascii_of_N 3) "".
Definition nl_tab : string := String (ascii_of_N 10) (String (ascii_of_N 9) "").

Section WithPlatform.
Variable P : Platform.

(** [datetime.datetime.utcnow()] *)
Definition utcnow : M datetime := fun k => (Ok (utc_clock P k), S k).

(** [datetime.datetime.now()] *)
Definition now : M datetime := fun k => (Ok (local_clock P k), S k).

(** *** [BaseService] *)

Definition check_request_state (created_at : datetime)
           (state_ : option string) (value : option Z)
           (duration : option string) : M bool :=
  match state_, value, duration with
  | Some state_, Some value, Some duration =>
      t1 <- utcnow ;;
      let rel_diff := Dateutil.relativedelta t1 created_at in
      t2 <- utcnow ;;
      let abs_diff := Datetime.sub t2 created_at in
      if negb (in_ state_ ["older"; "newer"]) then
        raise (ValueError ("Invalid state value: " ++ state_))
      else if (duration =? "y")%string then
        if (state_ =? "older")%string && (Dateutil.years rel_diff <? value) then
          ret false
        else if (state_ =? "newer")%string && (Dateutil.years rel_diff >=? value) then
          ret false
        else ret true
      else if (duration =? "m")%string then
        let abs_month := Dateutil.years rel_diff * 12 + Dateutil.months rel_diff in
        if (state_ =? "older")%string && (abs_month <? value) then
          ret false
        else if (state_ =? "newer")%string && (abs_month >=? value) then
          ret false
        else ret true
      else if (duration =? "d")%string then
        if (state_ =? "older")%string && (days abs_diff <? value) then
          ret false
        else if (state_ =? "newer")%string && (days abs_diff >=? value) then
          ret false
        else ret true
      else if (duration =? "h")%string then
        let abs_hour := Float.div_int (Float.total_seconds abs_diff) 3600 in
        if (state_ =? "older")%string && Float.lt_int abs_hour value then
          ret false
        else if (state_ =? "newer")%string && Float.ge_int abs_hour value then
          ret false
        else ret true
      else if (duration =? "min")%string then
        let abs_min := Float.div_int (Float.total_seconds abs_diff) 60 in
        if (state_ =? "older")%string && Float.lt_int abs_min value then
          ret false
        else if (state_ =? "newer")%string && Float.ge_int abs_min value then
          ret false
        else ret true
      else
        raise (ValueError ("Invalid duration type: " ++ duration))
  | _, _, _ => ret true
  end.

Definition has_new_comments (last_activity : option datetime)
           (days_ : option Z) : M bool :=
  today <- now ;;
  if truthy_obj last_activity && truthy_int days_ then
    match last_activity, days_ with
    | Some last_activity, Some n =>
        let delta := Datetime.sub today last_activity in
        ret (days delta <? n)
    | _, _ => ret false
    end
  else ret false.

(** *** [BaseReview] *)

(** The body of the [for k, v in time_dict.items()] loop. *)
Definition format_duration_step (result : list string) (kv : string * Z)
  : list string :=
  let '(k, v) := kv in
  if (k =? "minute")%string && truthy_list result then result
  else if v =? 1 then List.app result [str_of_int v ++ " " ++ k]
  else if v >? 1 then List.app result [str_of_int v ++ " " ++ k ++ "s"]
  else result.

Definition time_dict (rel_diff : Dateutil.t) : list (string * Z) :=
  [("year", Dateutil.years rel_diff);
   ("month", Dateutil.months rel_diff);
   ("day", Dateutil.days rel_diff);
   ("hour", Dateutil.hours rel_diff);
   ("minute", Dateutil.minutes rel_diff)].

(** [format_duration] once the relative delta is known. *)
Definition format_rel_diff (rel_diff : Dateutil.t) : string :=
  let result := fold_left format_duration_step (time_dict rel_diff) [] in
  if negb (truthy_list result) then "less than 1 minute"
  else join " " result.

Definition format_duration (created_at : datetime) : M string :=
  t <- utcnow ;;
  ret (format_rel_diff (Dateutil.relativedelta t created_at)).

Definition since (self : BaseReview) : M string :=
  format_duration (time self).

(** The [if self.comments == 1: ... elif self.comments > 1: ...] step,
    [sep] being the text in front of the count. *)
Definition add_comments (sep : string) (self : BaseReview) (s : string)
  : string :=
  if comments self =? 1 then
    s ++ sep ++ str_of_int (comments self) ++ " comment"
  else if comments self >? 1 then
    s ++ sep ++ str_of_int (comments self) ++ " comments"
  else s.

(** The [if self.last_comment: ...] step. *)
Definition add_last_comment (self : BaseReview) (s : string) : M string :=
  match last_comment self with
  | Some lc =>
      d <- format_duration (created_at lc) ;;
      ret (s ++ ", last comment by " ++ x02 ++ author lc ++ x02 ++ " "
             ++ d ++ " ago")
  | None => ret s
  end.

Definition _format_oneline (self : BaseReview) (i N : option Z) : M string :=
  sn <- since self ;;
  let s := user self ++ " filed '" ++ title self ++ "' " ++ url self
             ++ " " ++ sn ++ " ago" in
  let s := add_comments ", " self s in
  add_last_comment self s.

Definition _format_indented (self : BaseReview) (i N : option Z) : M string :=
  sn <- since self ;;
  let s := user self ++ " filed '" ++ title self ++ "'" ++ nl_tab
             ++ url self ++ nl_tab ++ sn ++ " ago" in
  let s := add_comments nl_tab self s in
  add_last_comment self s.

Definition _format_irc (self : BaseReview) : M string :=
  sn <- since self ;;
  let s := x02 ++ user self ++ x02 ++ " filed " ++ x02 ++ "'" ++ title self
             ++ "'" ++ x02 ++ " " ++ x03 ++ "12" ++ url self ++ x03 ++ " "
             ++ sn ++ " ago" in
  let s := add_comments ", " self s in
  add_last_comment self s.

Definition __json__ (self : BaseReview) (show_last_comment : option Z)
  : M (list (string * Json.value)) :=
  sn <- since self ;;
  let data :=
    [("user", Json.JString (user self));
     ("title", Json.JString (title self));
     ("url", Json.JString (url self));
     ("relative_time", Json.JString sn);
     ("time", Json.JFloat (mktime P (time self)));
     ("comments", Json.JInt (comments self));
     ("type", Json.JString (class_name self));
     ("image", match image self with
               | Some s => Json.JString s
               | None => Json.JNull
               end)] in
  match last_comment self with
  | Some lc =>
      let lcd :=
        [("author", Json.JString (author lc));
         ("created_at", Json.JFloat (mktime P (created_at lc)))] in
      let lcd :=
        match show_last_comment with
        | Some _ => List.app lcd [("body", Json.JString (body lc))]
        | None => lcd
        end in
      ret (List.app data [("last_comment", Json.JDict lcd)])
  | None => ret data
  end.

(** [_format_json]: [None] is Python's [None], returned when the
    [if i and N] test fails. *)
Definition _format_json (self : BaseReview) (i N : option Z)
           (show_last_comment : option Z) : M (option string) :=
  if truthy_int i && truthy_int N then
    let suffix :=
      match i, N with
      | Some i, Some N => if i <? N - 1 then "," else ""
      | _, _ => ""
      end in
    data <- __json__ self show_last_comment ;;
    ret (Some (Json.dumps (Json.JDict data) ++ suffix))
  else ret None.

(** [lookup[style]] on the dictionary of the four rendered styles. *)
Fixpoint lookup_style {A : Type} (style : string) (lookup : list (string * A))
  : M A :=
  match lookup with
  | [] => raise (KeyError style)
  | (k, v) :: rest =>
      if String.eqb k style then ret v else lookup_style style rest
  end.

Definition format (self : BaseReview) (style : string) (i N : option Z)
           (show_last_comment : option Z) : M (option string) :=
  oneline <- _format_oneline self i N ;;
  indented <- _format_indented self i N ;;
  json <- _format_json self i N show_last_comment ;;
  irc <- _format_irc self ;;
  lookup_style style
    [("oneline", Some oneline);
     ("indented", Some indented);
     ("json", json);
     ("irc", Some irc)].

End WithPlatform.

End Basereview.

(** ** The specification's vocabulary *)

Module Spec.
Import Py Datetime Basereview.

(** The specification's names for the two [ValueError]s of the filter. *)
Definition InvalidStateError (state_ : string) : exn :=
  ValueError ("Invalid state value: " ++ state_).

Definition InvalidDurationError (duration : string) : exn :=
  ValueError ("Invalid duration type: " ++ duration).

Definition states : list string := ["older"; "newer"].
Definition units : list string := ["y"; "m"; "d"; "h"; "min"].

(** The per-unit quantity of the filter: an integer for [y], [m] and [d],
    a float for [h] and [min]. *)
Inductive quantity : Type :=
| QInt (n : Z)
| QFloat (x : Float.float).

Definition quantity_of (rel_diff : Dateutil.t) (abs_diff : timedelta)
           (unit : string) : quantity :=
  if (unit =? "y")%string then QInt (Dateutil.years rel_diff)
  else if (unit =? "m")%string then
    QInt (Dateutil.years rel_diff * 12 + Dateutil.months rel_diff)
  else if (unit =? "d")%string then QInt (days abs_diff)
  else if (unit =? "h")%string then
    QFloat (Float.div_int (Float.total_seconds abs_diff) 3600)
  else QFloat (Float.div_int (Float.total_seconds abs_diff) 60).

(** [Q >= value] and [Q < value]. *)
Definition q_ge (q : quantity) (value : Z) : bool :=
  match q with
  | QInt n => n >=? value
  | QFloat x => Float.ge_int x value
  end.

Definition q_lt (q : quantity) (value : Z) : bool :=
  match q with
  | QInt n => n <? value
  | QFloat x => Float.lt_int x value
  end.

(** The filter's policy: "older" passes on [Q >= value], "newer" on
    [Q < value]. *)
Definition passes (state_ : string) (q : quantity) (value : Z) : bool :=
  if (state_ =? "older")%string then q_ge q value else q_lt q value.

(** [format_duration] in the specification's words. A component is
    rendered when its value is 1 (singular) or more (plural) and left out
    otherwise. *)
Definition render_component (k : string) (v : Z) : option string :=
  if v =? 0 then None
  else if v =? 1 then Some ("1 " ++ k)
  else if v >? 1 then Some (str_of_int v ++ " " ++ k ++ "s")
  else None.

Definition to_list (o : option string) : list string :=
  match o with
  | Some s => [s]
  | None => []
  end.

(** The components emitted, in the order year, month, day, hour, minute:
    the minute only when nothing coarser was emitted. *)
Definition emitted (rel_diff : Dateutil.t) : list string :=
  let coarse :=
    (to_list (render_component "year" (Dateutil.years rel_diff))
     ++ to_list (render_component "month" (Dateutil.months rel_diff))
     ++ to_list (render_component "day" (Dateutil.days rel_diff))
     ++ to_list (render_component "hour" (Dateutil.hours rel_diff)))%list in
  match coarse with
  | [] => to_list (render_component "minute" (Dateutil.minutes rel_diff))
  | _ :: _ => coarse
  end.

Definition format_duration_spec (rel_diff : Dateutil.t) : string :=
  match emitted rel_diff with
  | [] => "less than 1 minute"
  | parts => join " " parts
  end.

(** The duration string [format_duration] returns when its clock reading
    is the [t]-th. *)
Definition duration_at (P : Platform) (t : nat) (created : datetime) : string :=
  format_rel_diff (Dateutil.relativedelta (utc_clock P t) created).

(** The three text styles and their layouts. *)
Inductive text_style : Type := Oneline | Indented | Irc.

Definition style_name (s : text_style) : string :=
  match s with
  | Oneline => "oneline"
  | Indented => "indented"
  | Irc => "irc"
  end.

Definition head (s : text_style) (self : BaseReview) (sn : string) : string :=
  match s with
  | Oneline =>
      user self ++ " filed '" ++ title self ++ "' " ++ url self ++ " "
        ++ sn ++ " ago"
  | Indented =>
      user self ++ " filed '" ++ title self ++ "'" ++ nl_tab ++ url self
        ++ nl_tab ++ sn ++ " ago"
  | Irc =>
      x02 ++ user self ++ x02 ++ " filed " ++ x02 ++ "'" ++ title self
        ++ "'" ++ x02 ++ " " ++ x03 ++ "12" ++ url self ++ x03 ++ " "
        ++ sn ++ " ago"
  end.

(** What precedes the comment count: the only layout difference. *)
Definition count_sep (s : text_style) : string :=
  match s with
  | Indented => nl_tab
  | Oneline | Irc => ", "
  end.

(** The comment-count suffix: none for 0, singular for 1, plural above. *)
Definition count_suffix (sep : string) (n : Z) : string :=
  if n =? 0 then ""
  else if n =? 1 then sep ++ "1 comment"
  else if n >? 1 then sep ++ str_of_int n ++ " comments"
  else "".

(** The last-comment suffix, the same text in every text style. *)
Definition last_comment_suffix (author_ duration : string) : string :=
  ", last comment by " ++ x02 ++ author_ ++ x02 ++ " " ++ duration ++ " ago".

Definition last_comment_part (P : Platform) (self : BaseReview) (t : nat)
  : string :=
  match last_comment self with
  | Some lc =>
      last_comment_suffix (author lc) (duration_at P t (created_at lc))
  | None => ""
  end.

(** A text style rendered with its first clock reading the [t]-th. *)
Definition render_text (P : Platform) (s : text_style) (self : BaseReview)
           (t : nat) : string :=
  head s self (duration_at P t (time self))
    ++ count_suffix (count_sep s) (comments self)
    ++ last_comment_part P self (S t).

(** Clock readings of one text formatter, and of [_format_json]. *)
Definition text_reads (self : BaseReview) : nat :=
  match last_comment self with
  | Some _ => 2
  | None => 1
  end.

Definition json_reads (i N : option Z) : nat :=
  if truthy_int i && truthy_int N then 1 else 0.

(** [format] renders oneline, indented, json and irc in this order: the
    reading at which each text style starts. *)
Definition start_tick (s : text_style) (self : BaseReview) (i N : option Z)
           (k : nat) : nat :=
  match s with
  | Oneline => k
  | Indented => k + text_reads self
  | Irc => k + 2 * text_reads self + json_reads i N
  end.

(** The record with its last comment removed. *)
Definition without_last_comment (self : BaseReview) : BaseReview :=
  mkBaseReview (class_name self) (user self) (title self) (url self)
               (time self) (comments self) (image self) None
               (project_name self) (project_url self).

(** A platform whose clocks stand still at [t], in the UTC time zone. *)
Definition timegm (t : datetime) : Z :=
  (toordinal t - 719163) * 86400 + seconds_of_day t.

Definition frozen (t : datetime) : Platform :=
  mkPlatform (fun _ => t) (fun _ => t) timegm.

End Spec.

(** ** Sample inputs *)

Module Sample.
Import Datetime Basereview Spec.

Definition now0 : datetime := mkdatetime 2017 6 15 12 0 0 0.

(** 400 days before [now0]. *)
Definition created0 : datetime := mkdatetime 2016 5 11 12 0 0 0.

(** One hour after [now0]. *)
Definition later0 : datetime := mkdatetime 2017 6 15 13 0 0 0.

Definition P0 : Platform := frozen now0.

Definition comment0 : LastComment :=
  mkLastComment "bob" "Looks good" (mkdatetime 2017 6 14 12 0 0 0).

Definition review0 : BaseReview :=
  mkBaseReview "GithubReview" "alice" "Fix the parser"
               "http://example.com/pull/1"
               (mkdatetime 2015 3 15 11 59 30 0) 1 None (Some comment0)
               None None.

End Sample.

(** ** [BaseService]: the calls to the review platform *)

Module Service.

(** The exceptions the three methods tell apart: [ValueError] (the class
    and its subclasses, such as the decoding errors of [json] and of
    [bytes.decode]) is what [except ValueError] catches; everything else
    passes through. *)
Inductive exception : Type :=
| ValueError (msg : string)
| TypeError (msg : string)
| OtherError (name : string).

Inductive outcome (A : Type) : Type :=
| Returns (a : A)
| Raises (e : exception).
Arguments Returns {A} a.
Arguments Raises {A} e.

(** The characters [strip()] removes: space, tab, line feed, carriage
    return, vertical tab and form feed. *)
Definition is_space (c : ascii) : bool :=
  match N_of_ascii c with
  | 32%N | 9%N | 10%N | 13%N | 11%N | 12%N => true
  | _ => false
  end.

Fixpoint lstrip (s : string) : string :=
  match s with
  | EmptyString => EmptyString
  | String c rest => if is_space c then lstrip rest else s
  end.

Fixpoint rstrip (s : string) : string :=
  match s with
  | EmptyString => EmptyString
  | String c rest =>
      match rstrip rest with
      | EmptyString => if is_space c then EmptyString else String c EmptyString
      | rest' => String c rest'
      end
  end.

(** [content.strip()] *)
Definition strip (s : string) : string := rstrip (lstrip s).

(** [content[n:]] *)
Fixpoint drop (n : nat) (s : string) : string :=
  match n, s with
  | O, _ => s
  | S n', String _ rest => drop n' rest
  | S _, EmptyString => EmptyString
  end.

(** [gerrit_json_prefix]: the four characters [)]}'] and a line feed. *)
Definition gerrit_json_prefix : string := ")]}'" ++ String (ascii_of_N 10) "".

(** Truth value of [response.encoding]: [None] and the empty string are
    false. *)
Definition truthy_str (x : option string) : bool :=
  match x with
  | None | Some EmptyString => false
  | Some _ => true
  end.

Section WithLibraries.

(** What [json.loads] returns, and the library calls the methods make:
    [json.loads(text)], [content.decode(encoding)], the text operations
    applied to bytes that were not decoded ([startswith] with a text
    prefix: Python 2 takes the bytes for text, Python 3 raises
    [TypeError]), and ['%s' % content] for bytes. *)
Variable object : Type.
Variable loads : string -> outcome object.
Variable decode : string -> string -> outcome string.
Variable undecoded : string -> outcome string.
Variable format_bytes : string -> string.

(** The types of [self.header] and of the [ssl_verify] argument. *)
Variables headers verify : Type.

(** A [requests.Response], as far as the methods look at it: its
    attributes [content] and [encoding], and what its methods [json()] and
    [raise_for_status()] do when called. *)
Record Response : Type := mkResponse {
  content : string;
  encoding : option string;
  json : outcome object;
  raise_for_status : outcome unit
}.

(** The attributes of [self] the methods use: [self.session.request] and
    [self.header]. *)
Record BaseService : Type := mkBaseService {
  session_request : string -> string -> headers -> verify -> outcome Response;
  header : headers
}.

Definition _decode_response (response : Response) : outcome object :=
  let content := strip (content response) in
  match
    (if truthy_str (encoding response) then
       match encoding response with
       | Some e => decode content e
       | None => undecoded content
       end
     else undecoded content)
  with
  | Raises (ValueError _) =>
      Raises (ValueError ("Invalid json content: " ++ format_bytes content))
  | Raises e => Raises e
  | Returns content =>
      let content :=
        if String.prefix gerrit_json_prefix content then
          drop (String.length gerrit_json_prefix) content
        else content in
      match loads content with
      | Raises (ValueError _) =>
          Raises (ValueError ("Invalid json content: " ++ content))
      | r => r
      end
  end.

Definition get_response (self : BaseService) (method url : string)
           (ssl_verify : verify) : outcome Response :=
  match session_request self method url (header self) ssl_verify with
  | Raises e => Raises e
  | Returns response =>
      match raise_for_status response with
      | Raises e => Raises e
      | Returns _ => Returns response
      end
  end.

Definition _call_api (self : BaseService) (url method : string)
           (ssl_verify : verify) : outcome object :=
  match get_response self method url ssl_verify with
  | Raises e => Raises e
  | Returns response =>
      match json response with
      | Raises (ValueError _) => _decode_response response
      | r => r
      end
  end.

End WithLibraries.

Arguments content {object}.
Arguments encoding {object}.
Arguments json {object}.
Arguments raise_for_status {object}.
Arguments mkResponse {object}.

End Service.

(** ** Field ranges *)

Module Ranges.
Import Datetime.

(** Field ranges of the date and of the time of day, separately. *)
Definition valid_date (t : datetime) : Prop :=
  1 <= month t <= 12 /\ 1 <= day t <= _days_in_month (year t) (month t).

Definition valid_time (t : datetime) : Prop :=
  0 <= hour t < 24 /\ 0 <= minute t < 60 /\ 0 <= second t < 60
  /\ 0 <= microsecond t < 1000000.

End Ranges.

(** ** Sample platform calls *)

Module ServiceSample.
Import Service.

(** Whether a string consists of the characters [strip()] removes. *)
Fixpoint all_space (s : string) : bool :=
  match s with
  | EmptyString => true
  | String c rest => is_space c && all_space rest
  end.

(** A parser that knows one document, a decoder for ASCII content, and
    Python 3's refusal to search bytes for a text prefix. *)
Definition loads0 (text : string) : outcome Z :=
  if (text =? "42")%string then Returns 42
  else Raises (ValueError "Expecting value").

Definition decode0 (content enc : string) : outcome string := Returns content.

Definition undecoded0 (content : string) : outcome string :=
  Raises (TypeError "startswith first arg must be bytes or a tuple of bytes, not str").

Definition format_bytes0 (content : string) : string := "b'" ++ content ++ "'".

(** A Gerrit answer: the prefix, the document and a final line feed; its
    [json()] fails on the prefix. *)
Definition gerrit0 : Response Z :=
  mkResponse (gerrit_json_prefix ++ "42" ++ String (ascii_of_N 10) "")
             (Some "UTF-8") (Raises (ValueError "Expecting value"))
             (Returns tt).

Definition service0 : BaseService Z unit bool :=
  mkBaseService Z unit bool (fun _ _ _ _ => Returns gerrit0) tt.

End ServiceSample.

(** ** More sample inputs *)

Module MoreSamples.
Import Datetime Basereview Spec Sample Service ServiceSample.

(** [review0] seen through another platform class, with an avatar, a
    project and another text of the last comment. *)
Definition review1 : BaseReview :=
  mkBaseReview "GitlabReview" "alice" "Fix the parser"
               "http://example.com/pull/1"
               (mkdatetime 2015 3 15 11 59 30 0) 1
               (Some "http://example.com/alice.png")
               (Some (mkLastComment "bob" "Please rebase"
                                    (mkdatetime 2017 6 14 12 0 0 0)))
               (Some "parser") (Some "http://example.com/parser").

(** 23 hours before [now0]. *)
Definition recent0 : datetime := mkdatetime 2017 6 14 13 0 0 0.

(** An answer that is no JSON document. *)
Definition broken0 : Response Z :=
  mkResponse "oops" (Some "UTF-8") (Raises (ValueError "Expecting value"))
             (Returns tt).

End MoreSamples.

(** * Properties *)

Import Py Datetime Basereview Spec Sample.

(** ** Strings and membership *)

Lemma append_assoc (a b c : string) : ((a ++ b) ++ c = a ++ (b ++ c))%string.
Proof.
  induction a as [|ch a IH]; cbn; [reflexivity | now rewrite IH].
Qed.

Lemma append_nil_r (a : string) : (a ++ "" = a)%string.
Proof.
  induction a as [|ch a IH]; cbn; [reflexivity | now rewrite IH].
Qed.

Lemma in__true_iff (x : string) (xs : list string) :
  in_ x xs = true <-> In x xs.
Proof.
  unfold in_. rewrite existsb_exists. split.
  - intros [y [Hy Heq]]. apply String.eqb_eq in Heq. now subst.
  - intros H. exists x. split; [assumption | apply String.eqb_refl].
Qed.

Lemma in__false_iff (x : string) (xs : list string) :
  in_ x xs = false <-> ~ In x xs.
Proof.
  rewrite <- in__true_iff. destruct (in_ x xs); split; congruence.
Qed.

(** ** Floats: the quotients of the filter are numbers *)

Section RoundingFacts.
Variables prec emax : Z.

Lemma shr_1_nonneg (mrs : shr_record) :
  0 <= shr_m mrs -> 0 <= shr_m (shr_1 mrs).
Proof.
  destruct mrs as [m r s]. cbn [shr_m].
  destruct m as [|p|p]; [| destruct p | destruct p]; cbn; lia.
Qed.

Lemma iter_pos_shr_1_nonneg (p : positive) (mrs : shr_record) :
  0 <= shr_m mrs -> 0 <= shr_m (iter_pos shr_1 p mrs).
Proof.
  revert mrs. induction p as [p IH|p IH|]; intros mrs H; cbn.
  - apply IH, IH, shr_1_nonneg, H.
  - apply IH, IH, H.
  - apply shr_1_nonneg, H.
Qed.

Lemma shr_nonneg (mrs : shr_record) (e n : Z) :
  0 <= shr_m mrs -> 0 <= shr_m (fst (shr mrs e n)).
Proof.
  intros H. destruct n; cbn; try assumption.
  now apply iter_pos_shr_1_nonneg.
Qed.

Lemma shr_fexp_nonneg (m e : Z) (l : location) :
  0 <= m -> 0 <= shr_m (fst (shr_fexp prec emax m e l)).
Proof.
  intros H. unfold shr_fexp. apply shr_nonneg.
  destruct l as [|[ | | ]]; cbn; assumption.
Qed.

Lemma round_nearest_even_nonneg (m : Z) (l : location) :
  0 <= m -> 0 <= round_nearest_even m l.
Proof.
  intros H. destruct l as [|[ | | ]]; cbn; try lia.
  destruct (Z.even m); lia.
Qed.

Lemma binary_round_aux_not_nan (sx : bool) (mx ex : Z) (lx : location) :
  0 <= mx -> Float.is_nan (binary_round_aux prec emax sx mx ex lx) = false.
Proof.
  intros H. unfold binary_round_aux.
  pose proof (shr_fexp_nonneg mx ex lx H) as H1.
  destruct (shr_fexp prec emax mx ex lx) as [mrs' e']. cbn [fst] in H1.
  pose proof (shr_fexp_nonneg _ e' loc_Exact
                (round_nearest_even_nonneg _ (loc_of_shr_record mrs') H1)) as H2.
  destruct (shr_fexp prec emax _ e' loc_Exact) as [mrs'' e'']. cbn [fst] in H2.
  destruct (shr_m mrs'') as [|p|p]; [reflexivity | | lia].
  destruct (e'' <=? emax - prec); reflexivity.
Qed.

Lemma SFdiv_core_binary_nonneg (m1 m2 : positive) (e1 e2 : Z) :
  0 <= fst (fst (SFdiv_core_binary prec emax (Zpos m1) e1 (Zpos m2) e2)).
Proof.
  unfold SFdiv_core_binary.
  set (s := e1 - e2 - _).
  set (m' := match s with Z0 => _ | Zpos _ => _ | Zneg _ => _ end).
  assert (Hm : 0 <= m').
  { subst m'. destruct s; try lia. apply Z.shiftl_nonneg. lia. }
  pose proof (Z.div_pos m' (Zpos m2) Hm ltac:(lia)) as Hq.
  unfold Z.div in Hq.
  destruct (Z.div_eucl m' (Zpos m2)) as [q r]. exact Hq.
Qed.

Lemma SFdiv_finite_not_nan (x : spec_float) (s : bool) (m : positive) (e : Z) :
  Float.is_nan x = false ->
  Float.is_nan (SFdiv prec emax x (S754_finite s m e)) = false.
Proof.
  intros Hx. destruct x as [sx|sx| |sx mx ex]; try reflexivity; try discriminate.
  unfold SFdiv.
  pose proof (SFdiv_core_binary_nonneg mx m ex e) as Hq.
  destruct (SFdiv_core_binary prec emax (Zpos mx) ex (Zpos m) e) as [[mz ez] lz].
  apply binary_round_aux_not_nan. exact Hq.
Qed.

End RoundingFacts.

Lemma round_quotient_not_nan (s : bool) (a b : positive) :
  Float.is_nan (Float.round_quotient s a b) = false.
Proof.
  unfold Float.round_quotient.
  pose proof (SFdiv_core_binary_nonneg Float.prec Float.emax a b 0 0) as Hq.
  destruct (SFdiv_core_binary Float.prec Float.emax (Zpos a) 0 (Zpos b) 0)
    as [[mz ez] lz].
  apply binary_round_aux_not_nan. exact Hq.
Qed.

Lemma total_seconds_not_nan (d : timedelta) :
  Float.is_nan (Float.total_seconds d) = false.
Proof.
  unfold Float.total_seconds, Float.int_truediv.
  destruct (to_microseconds d); [reflexivity | |]; apply round_quotient_not_nan.
Qed.

Lemma hours_not_nan (d : timedelta) :
  Float.is_nan (Float.div_int (Float.total_seconds d) 3600) = false.
Proof.
  unfold Float.div_int.
  change (Float.of_int 3600) with (S754_finite false 7916483719987200 (-41)).
  apply SFdiv_finite_not_nan, total_seconds_not_nan.
Qed.

Lemma minutes_not_nan (d : timedelta) :
  Float.is_nan (Float.div_int (Float.total_seconds d) 60) = false.
Proof.
  unfold Float.div_int.
  change (Float.of_int 60) with (S754_finite false 8444249301319680 (-47)).
  apply SFdiv_finite_not_nan, total_seconds_not_nan.
Qed.

(** For a number, [x >= n] is the negation of [x < n]. *)
Lemma ge_int_negb_lt_int (x : Float.float) (n : Z) :
  Float.is_nan x = false -> Float.ge_int x n = negb (Float.lt_int x n).
Proof.
  intros Hx. unfold Float.ge_int, Float.lt_int, Float.cmp_int.
  destruct x as [s|s| |s m e]; try discriminate.
  - destruct (0 ?= n); reflexivity.
  - destruct s; reflexivity.
  - destruct (0 <=? e);
      match goal with |- context [?a ?= ?b] => destruct (a ?= b) end;
      reflexivity.
Qed.

(** ** Calendar arithmetic *)

Lemma _days_before_year_succ (y : Z) :
  _days_before_year (y + 1)
  = _days_before_year y + 365 + (if _is_leap y then 1 else 0).
Proof.
  unfold _days_before_year, _is_leap. replace (y + 1 - 1) with y by lia.
  destruct (Z.eqb_spec (y mod 4) 0), (Z.eqb_spec (y mod 100) 0),
    (Z.eqb_spec (y mod 400) 0); cbn [andb orb negb];
    Z.div_mod_to_equations; lia.
Qed.

Lemma month_cases (m : Z) :
  1 <= m <= 12 ->
  m = 1 \/ m = 2 \/ m = 3 \/ m = 4 \/ m = 5 \/ m = 6 \/ m = 7 \/ m = 8
  \/ m = 9 \/ m = 10 \/ m = 11 \/ m = 12.
Proof. lia. Qed.

Ltac each_month H :=
  destruct (month_cases _ H) as
    [->|[->|[->|[->|[->|[->|[->|[->|[->|[->|[->| ->]]]]]]]]]]].

Lemma day_of_year_bounds (y m d : Z) :
  1 <= m <= 12 -> 1 <= d <= _days_in_month y m ->
  1 <= _days_before_month y m + d <= 366.
Proof.
  intros Hm. unfold _days_in_month, _days_before_month.
  each_month Hm; cbn -[Z.add]; destruct (_is_leap y); cbn -[Z.add]; lia.
Qed.

Lemma year_gap_of_400_days (y1 m1 d1 y2 m2 d2 : Z) :
  1 <= m1 <= 12 -> 1 <= d1 <= _days_in_month y1 m1 ->
  1 <= m2 <= 12 -> 1 <= d2 <= _days_in_month y2 m2 ->
  _ymd2ord y1 m1 d1 - _ymd2ord y2 m2 d2 = 400 ->
  y1 = y2 + 1 \/ y1 = y2 + 2.
Proof.
  intros Hm1 Hd1 Hm2 Hd2 H.
  pose proof (day_of_year_bounds y1 m1 d1 Hm1 Hd1).
  pose proof (day_of_year_bounds y2 m2 d2 Hm2 Hd2).
  unfold _ymd2ord, _days_before_year in H.
  Z.div_mod_to_equations. lia.
Qed.

Lemma months_of_400_days (y1 m1 d1 y2 m2 d2 : Z) :
  1 <= m1 <= 12 -> 1 <= d1 <= _days_in_month y1 m1 ->
  1 <= m2 <= 12 -> 1 <= d2 <= _days_in_month y2 m2 ->
  _ymd2ord y1 m1 d1 - _ymd2ord y2 m2 d2 = 400 ->
  (y1 - y2) * 12 + (m1 - m2)
  - (if d1 <? Z.min (_days_in_month y1 m1) d2 then 1 else 0) = 13.
Proof.
  intros Hm1 Hd1 Hm2 Hd2 H.
  pose proof (_days_before_year_succ y2) as S1.
  pose proof (_days_before_year_succ (y2 + 1)) as S2.
  replace (y2 + 1 + 1) with (y2 + 2) in S2 by lia.
  destruct (year_gap_of_400_days _ _ _ _ _ _ Hm1 Hd1 Hm2 Hd2 H) as [-> | ->];
    unfold _ymd2ord in H; rewrite ?S2, ?S1 in H; clear S1 S2;
    revert Hd1 Hd2 H;
    generalize (_days_before_year y2); intros D;
    unfold _days_in_month, _days_before_month;
    destruct (_is_leap y2), (_is_leap (y2 + 1)), (_is_leap (y2 + 2));
    each_month Hm1; each_month Hm2;
    repeat match goal with
      | |- context [2 <? ?m] =>
          let v := eval vm_compute in (2 <? m) in change (2 <? m) with v
      end;
    cbn -[Z.add Z.sub Z.mul Z.min Z.ltb];
    intros Hd1 Hd2 H;
    match goal with
    | |- context [?a <? ?b] => destruct (Z.ltb_spec a b)
    end; lia.
Qed.

Lemma shifted_fields (c : datetime) (M : Z) :
  1 <= month c <= 12 ->
  exists y m,
    Dateutil.shifted c M
    = mkdatetime y m (Z.min (_days_in_month y m) (day c))
                 (hour c) (minute c) (second c) (microsecond c)
    /\ y * 12 + m = year c * 12 + month c + M
    /\ 1 <= m <= 12.
Proof.
  intros Hm. unfold Dateutil.shifted, Dateutil._set_months, Dateutil._sign,
    Dateutil.__radd__, Dateutil.monthrange.
  destruct (Z.ltb_spec 11 (Z.abs M)); [destruct (Z.ltb_spec M 0) |];
    match goal with
    | |- context [?a =? 0] => destruct (Z.eqb_spec a 0)
    end;
    try match goal with
    | |- context [12 <? ?a] =>
        destruct (Z.ltb_spec 12 a); [| destruct (Z.ltb_spec a 1)]
    end;
    (eexists; eexists; split; [reflexivity |]);
    Z.div_mod_to_equations; lia.
Qed.

Lemma cmp_year_month_lt (a b : datetime) :
  1 <= month a <= 12 -> 1 <= month b <= 12 ->
  year a * 12 + month a < year b * 12 + month b ->
  cmp a b = Lt.
Proof.
  intros Ha Hb H. unfold cmp, fields. cbn [cmp_tuple].
  destruct (Z.compare_spec (year a) (year b)); [| reflexivity | lia].
  destruct (Z.compare_spec (month a) (month b)); [lia | reflexivity | lia].
Qed.

Lemma cmp_year_month_gt (a b : datetime) :
  1 <= month a <= 12 -> 1 <= month b <= 12 ->
  year b * 12 + month b < year a * 12 + month a ->
  cmp a b = Gt.
Proof.
  intros Ha Hb H. unfold cmp, fields. cbn [cmp_tuple].
  destruct (Z.compare_spec (year a) (year b)); [| lia | reflexivity].
  destruct (Z.compare_spec (month a) (month b)); [lia | lia | reflexivity].
Qed.

(** The loop of [relativedelta] leaves through its test: after at most one
    adjustment the comparison is false, so the bound on the number of
    rounds is never what stops it. *)
Lemma adjust_exits (dt1 dt2 : datetime) (n : nat) :
  1 <= month dt1 <= 12 -> 1 <= month dt2 <= 12 ->
  let months0 := (year dt1 - year dt2) * 12 + (month dt1 - month dt2) in
  (lt dt1 dt2 = true ->
   gt dt1 (Dateutil.shifted dt2 (Dateutil.adjust (S (S n)) gt 1 dt1 dt2 months0))
   = false)
  /\ (lt dt1 dt2 = false ->
      lt dt1 (Dateutil.shifted dt2
                (Dateutil.adjust (S (S n)) lt (-1) dt1 dt2 months0))
      = false).
Proof.
  intros H1 H2 months0. split; intros _.
  - cbn [Dateutil.adjust].
    destruct (gt dt1 (Dateutil.shifted dt2 months0)) eqn:E0; [| exact E0].
    assert (E1 : gt dt1 (Dateutil.shifted dt2 (months0 + 1)) = false).
    { destruct (shifted_fields dt2 (months0 + 1) H2) as (y & m & -> & Hym & Hm).
      unfold gt. rewrite cmp_year_month_lt; [reflexivity | assumption | exact Hm |].
      cbn [year month]. subst months0. lia. }
    rewrite E1. exact E1.
  - cbn [Dateutil.adjust].
    destruct (lt dt1 (Dateutil.shifted dt2 months0)) eqn:E0; [| exact E0].
    assert (E1 : lt dt1 (Dateutil.shifted dt2 (months0 + -1)) = false).
    { destruct (shifted_fields dt2 (months0 + -1) H2) as (y & m & -> & Hym & Hm).
      unfold lt. rewrite cmp_year_month_gt; [reflexivity | assumption | exact Hm |].
      cbn [year month]. subst months0. lia. }
    rewrite E1. exact E1.
Qed.

Lemma adjust_lt_result (dt1 dt2 : datetime) (n : nat) :
  1 <= month dt1 <= 12 -> 1 <= month dt2 <= 12 ->
  let months0 := (year dt1 - year dt2) * 12 + (month dt1 - month dt2) in
  Dateutil.adjust (S (S n)) lt (-1) dt1 dt2 months0
  = months0 - (if lt dt1 (Dateutil.shifted dt2 months0) then 1 else 0).
Proof.
  intros H1 H2 months0. cbn [Dateutil.adjust].
  destruct (lt dt1 (Dateutil.shifted dt2 months0)); [| lia].
  assert (E1 : lt dt1 (Dateutil.shifted dt2 (months0 + -1)) = false).
  { destruct (shifted_fields dt2 (months0 + -1) H2) as (y & m & -> & Hym & Hm).
    unfold lt. rewrite cmp_year_month_gt; [reflexivity | assumption | exact Hm |].
    cbn [year month]. subst months0. lia. }
  rewrite E1. lia.
Qed.

Lemma lt_same_month (y m d1 d2 h mi s us : Z) :
  lt (mkdatetime y m d1 h mi s us) (mkdatetime y m d2 h mi s us) = (d1 <? d2).
Proof.
  unfold lt, cmp, fields. cbn [cmp_tuple year month day hour minute second microsecond].
  rewrite !Z.compare_refl. unfold Z.ltb. destruct (d1 ?= d2); reflexivity.
Qed.

Lemma years_fix (r : Dateutil.t) :
  Dateutil.years (Dateutil._fix r)
  = snd (Dateutil.carry 11 12 (Dateutil.months r) (Dateutil.years r)).
Proof.
  unfold Dateutil._fix.
  destruct (Dateutil.carry 999999 1000000 _ _) as [us s].
  destruct (Dateutil.carry 59 60 s _) as [s' mi].
  destruct (Dateutil.carry 59 60 mi _) as [mi' h].
  destruct (Dateutil.carry 23 24 h _) as [h' d].
  destruct (Dateutil.carry 11 12 _ _) as [mo y]. reflexivity.
Qed.

(** A timedelta of exactly 400 days between two datetimes: the ordinals are
    400 apart and the times of day agree. *)
Lemma sub_400_days (a b : datetime) :
  valid a -> valid b -> Datetime.sub a b = mktimedelta 400 0 0 ->
  toordinal a - toordinal b = 400
  /\ hour a = hour b /\ minute a = minute b /\ second a = second b
  /\ microsecond a = microsecond b.
Proof.
  intros (_ & _ & _ & Hh & Hmi & Hs & Hus) (_ & _ & _ & Hh' & Hmi' & Hs' & Hus').
  unfold Datetime.sub, timedelta_new, seconds_of_day. intros H.
  injection H as Hd Hsec Husec.
  Z.div_mod_to_equations. lia.
Qed.

Lemma years_of_400_days (a b : datetime) :
  valid a -> valid b -> Datetime.sub a b = mktimedelta 400 0 0 ->
  Dateutil.years (Dateutil.relativedelta a b) = 1.
Proof.
  intros Va Vb H.
  destruct (sub_400_days a b Va Vb H) as (Hord & Hh & Hmi & Hs & Hus).
  destruct Va as (_ & Hm1 & Hd1 & _), Vb as (_ & Hm2 & Hd2 & _).
  unfold toordinal in Hord.
  pose proof (months_of_400_days _ _ _ _ _ _ Hm1 Hd1 Hm2 Hd2 Hord) as Hmonths.
  assert (Hy : year b < year a)
    by (destruct (year_gap_of_400_days _ _ _ _ _ _ Hm1 Hd1 Hm2 Hd2 Hord); lia).
  assert (Hlt : lt a b = false).
  { unfold lt, cmp, fields. cbn [cmp_tuple].
    apply Z.compare_gt_iff in Hy. now rewrite Hy. }
  unfold Dateutil.relativedelta. rewrite Hlt.
  rewrite adjust_lt_result by assumption.
  destruct (shifted_fields b ((year a - year b) * 12 + (month a - month b)) Hm2)
    as (y & m & E & Hym & Hm).
  assert (y = year a /\ m = month a) as [-> ->] by lia.
  rewrite E.
  assert (Hl : forall d,
             lt a (mkdatetime (year a) (month a) d (hour b) (minute b)
                              (second b) (microsecond b))
             = (day a <? d)).
  { intros d. rewrite <- Hh, <- Hmi, <- Hs, <- Hus. destruct a. apply lt_same_month. }
  rewrite Hl, Hmonths.
  change (Dateutil._set_months 13) with (1, 1). cbv beta iota.
  rewrite years_fix. reflexivity.
Qed.

(** The year part of [_ord2ymd]: the cycle counts of a day number. *)
Lemma cycles_of_day (n0 : Z) :
  0 <= n0 ->
  let n400 := n0 / 146097 in
  let r1 := n0 mod 146097 in
  let n100 := r1 / 36524 in
  let r2 := r1 mod 36524 in
  let n4 := r2 / 1461 in
  let r3 := r2 mod 1461 in
  let n1 := r3 / 365 in
  let r4 := r3 mod 365 in
  n0 = 146097 * n400 + 36524 * n100 + 1461 * n4 + 365 * n1 + r4
  /\ 0 <= n400 /\ 0 <= n100 <= 4 /\ 0 <= n4 <= 24 /\ 0 <= n1 <= 4
  /\ 0 <= r4 < 365
  /\ (n100 = 4 -> n4 = 0 /\ n1 = 0 /\ r4 = 0)
  /\ (n1 = 4 -> r4 = 0 /\ n4 <= 23).
Proof.
  intros H. cbv zeta. Z.div_mod_to_equations. lia.
Qed.

(** The year a cycle count stands for: its first day and its leap status. *)
Lemma year_of_cycles (n400 n100 n4 n1 : Z) :
  0 <= n400 -> 0 <= n100 <= 3 -> 0 <= n4 <= 24 -> 0 <= n1 <= 3 ->
  let y := n400 * 400 + 1 + n100 * 100 + n4 * 4 + n1 in
  _days_before_year y = 146097 * n400 + 36524 * n100 + 1461 * n4 + 365 * n1
  /\ _is_leap y = (n1 =? 3) && (negb (n4 =? 24) || (n100 =? 3)).
Proof.
  intros H400 H100 H4 H1 y. subst y. split.
  - unfold _days_before_year. Z.div_mod_to_equations. lia.
  - unfold _is_leap.
    destruct (Z.eqb_spec n1 3), (Z.eqb_spec n4 24), (Z.eqb_spec n100 3);
      cbn [andb orb negb];
      repeat match goal with
        | |- context [?a mod ?b =? 0] => destruct (Z.eqb_spec (a mod b) 0)
        end; cbn [andb orb negb]; try reflexivity;
      Z.div_mod_to_equations; lia.
Qed.

(** The last day of a cycle is 31 December of a leap year. *)
Lemma year_end_of_cycles (n400 n100 n4 n1 : Z) :
  0 <= n400 -> 0 <= n100 <= 4 -> 0 <= n4 <= 24 -> 0 <= n1 <= 4 ->
  (n100 = 4 -> n4 = 0 /\ n1 = 0) -> (n1 = 4 -> n4 <= 23) ->
  n1 = 4 \/ n100 = 4 ->
  let y := n400 * 400 + 1 + n100 * 100 + n4 * 4 + n1 - 1 in
  _days_before_year y + 366
  = 146097 * n400 + 36524 * n100 + 1461 * n4 + 365 * n1 + 1
  /\ _is_leap y = true.
Proof.
  intros H400 H100 H4 H1 Hc Hy Hend y. subst y. split.
  - unfold _days_before_year. Z.div_mod_to_equations. lia.
  - unfold _is_leap.
    repeat match goal with
      | |- context [?a mod ?b =? 0] => destruct (Z.eqb_spec (a mod b) 0)
      end; cbn [andb orb negb]; try reflexivity;
      Z.div_mod_to_equations; lia.
Qed.

Lemma month_day_table (b : bool) :
  forallb (fun r =>
             let '(m, d) := _month_day b r in
             (1 <=? m) && (m <=? 12) && (1 <=? d)
             && (d <=? (if (m =? 2) && b then 29 else _DAYS_IN_MONTH m))
             && (_DAYS_BEFORE_MONTH m + (if (2 <? m) && b then 1 else 0) + d
                 =? r + 1))
          (map Z.of_nat (seq 0 365))
  = true.
Proof. destruct b; vm_compute; reflexivity. Qed.

Lemma month_day_spec (b : bool) (r : Z) :
  0 <= r < 365 ->
  let m := fst (_month_day b r) in
  let d := snd (_month_day b r) in
  1 <= m <= 12
  /\ 1 <= d <= (if (m =? 2) && b then 29 else _DAYS_IN_MONTH m)
  /\ _DAYS_BEFORE_MONTH m + (if (2 <? m) && b then 1 else 0) + d = r + 1.
Proof.
  intros Hr m d.
  pose proof (month_day_table b) as H. rewrite forallb_forall in H.
  specialize (H r). subst m d. destruct (_month_day b r) as [m d].
  cbn [fst snd].
  assert (Hin : In r (map Z.of_nat (seq 0 365))).
  { rewrite <- (Z2Nat.id r) by lia. apply in_map, in_seq. lia. }
  specialize (H Hin). rewrite !andb_true_iff in H.
  rewrite !Z.leb_le, Z.eqb_eq in H. lia.
Qed.

(** [_ord2ymd] inverts [_ymd2ord] on the ordinals of the calendar. *)
Lemma _ord2ymd_spec (n : Z) :
  1 <= n <= _MAXORDINAL ->
  let '(y, m, d) := _ord2ymd n in
  1 <= y <= 9999 /\ 1 <= m <= 12 /\ 1 <= d <= _days_in_month y m
  /\ _ymd2ord y m d = n.
Proof.
  intros Hn. unfold _ord2ymd, _MAXORDINAL in *.
  pose proof (cycles_of_day (n - 1) ltac:(lia)) as H. cbv zeta in H.
  set (n400 := (n - 1) / 146097) in *.
  set (r1 := (n - 1) mod 146097) in *.
  set (n100 := r1 / 36524) in *.
  set (r2 := r1 mod 36524) in *.
  set (n4 := r2 / 1461) in *.
  set (r3 := r2 mod 1461) in *.
  set (n1 := r3 / 365) in *.
  set (r4 := r3 mod 365) in *.
  destruct H as (Hsum & H400 & H100 & H4 & H1 & Hr4 & Hc & Hy).
  destruct (Z.eqb_spec n1 4) as [E1|E1]; [| destruct (Z.eqb_spec n100 4) as [E2|E2]];
    cbn [orb].
  1, 2: destruct (year_end_of_cycles n400 n100 n4 n1) as [Hd Hl];
    try lia; unfold _ymd2ord, _days_in_month, _days_before_month;
    rewrite Hl; cbn -[Z.add Z.sub Z.mul _days_before_year]; lia.
  destruct (year_of_cycles n400 n100 n4 n1) as [Hd Hl]; try lia.
  rewrite <- Hl.
  pose proof (month_day_spec
                (_is_leap (n400 * 400 + 1 + n100 * 100 + n4 * 4 + n1)) r4 Hr4)
    as Hmd.
  destruct (_month_day _ r4) as [m d]. cbn [fst snd] in Hmd.
  unfold _ymd2ord, _days_in_month, _days_before_month. rewrite Hd. lia.
Qed.

(** [t - timedelta(days=n)] is a datetime [n] days before [t], at the same
    time of day. *)
Lemma sub_days_spec (t c : datetime) (n : Z) :
  valid t -> sub_days t n = Some c ->
  valid c /\ Datetime.sub t c = mktimedelta n 0 0.
Proof.
  intros (Hy & Hm & Hd & Hh & Hmi & Hs & Hus) H.
  unfold sub_days in H.
  assert (E : timedelta_new (toordinal t - n) (seconds_of_day t) (microsecond t)
              = mktimedelta (toordinal t - n) (seconds_of_day t) (microsecond t)).
  { unfold timedelta_new, seconds_of_day.
    rewrite (Z.div_small (microsecond t)), (Z.mod_small (microsecond t)) by lia.
    rewrite Z.add_0_r, Z.div_small, Z.mod_small by lia.
    now rewrite Z.add_0_r. }
  rewrite E in H. cbn [days seconds microseconds] in H.
  destruct (Z.ltb_spec 0 (toordinal t - n)) as [Hlo|]; [| discriminate].
  destruct (Z.leb_spec (toordinal t - n) _MAXORDINAL) as [Hhi|]; [| discriminate].
  cbn [andb] in H.
  pose proof (_ord2ymd_spec (toordinal t - n) ltac:(lia)) as Hord.
  destruct (_ord2ymd (toordinal t - n)) as [[y m] d].
  destruct Hord as (Hy' & Hm' & Hd' & Hord).
  injection H as <-.
  assert (Hsod : seconds_of_day t / 3600 = hour t
                 /\ seconds_of_day t mod 3600 / 60 = minute t
                 /\ seconds_of_day t mod 3600 mod 60 = second t)
    by (unfold seconds_of_day; Z.div_mod_to_equations; lia).
  destruct Hsod as (-> & -> & ->).
  split.
  - unfold valid. cbn. repeat split; lia.
  - unfold Datetime.sub, toordinal, seconds_of_day. cbn.
    fold (seconds_of_day t). unfold toordinal in Hord. rewrite Hord.
    replace (_ymd2ord (year t) (month t) (day t)
             - (_ymd2ord (year t) (month t) (day t) - n)) with n by lia.
    rewrite !Z.sub_diag. unfold timedelta_new. cbn. now rewrite Z.add_0_r.
Qed.

(** ** The time filter *)

Lemma geb_negb_ltb (a b : Z) : (a >=? b) = negb (a <? b).
Proof.
  rewrite Z.geb_leb. destruct (Z.leb_spec b a), (Z.ltb_spec a b); try reflexivity; lia.
Qed.

Ltac filter_branches :=
  repeat match goal with
    | |- context [Float.ge_int ?x ?v] =>
        rewrite (ge_int_negb_lt_int x v)
          by (apply hours_not_nan || apply minutes_not_nan)
    | |- context [?a >=? ?b] => rewrite (geb_negb_ltb a b)
    end;
  repeat match goal with
    | |- context [Float.lt_int ?x ?v] => destruct (Float.lt_int x v)
    | |- context [?a <? ?b] => destruct (a <? b)
    end; reflexivity.

(** With a valid state and unit the filter reads the UTC clock twice and
    returns the verdict of the policy on the unit's quantity. *)
Lemma check_request_state_valid (P : Platform) (created_at : datetime)
      (state_ : string) (value : Z) (duration : string) (k : nat) :
  In state_ states -> In duration units ->
  check_request_state P created_at (Some state_) (Some value) (Some duration) k
  = (Ok (passes state_
           (quantity_of (Dateutil.relativedelta (utc_clock P k) created_at)
                        (Datetime.sub (utc_clock P (S k)) created_at)
                        duration)
           value),
     S (S k)).
Proof.
  intros Hs Hd. unfold states, units in Hs, Hd. cbn [In] in Hs, Hd.
  destruct Hs as [<-|[<-|[]]];
    destruct Hd as [<-|[<-|[<-|[<-|[<-|[]]]]]];
    cbn -[Dateutil.relativedelta Datetime.sub Float.div_int Float.total_seconds
          Float.lt_int Float.ge_int Z.ltb Z.geb Z.mul Z.add];
    filter_branches.
Qed.

Lemma check_request_state_bad_state (P : Platform) (created_at : datetime)
      (state_ : string) (value : Z) (duration : string) (k : nat) :
  ~ In state_ states ->
  check_request_state P created_at (Some state_) (Some value) (Some duration) k
  = (Raise (InvalidStateError state_), S (S k)).
Proof.
  intros Hs. apply in__false_iff in Hs. unfold states in Hs.
  unfold check_request_state, bind, utcnow, raise. now rewrite Hs.
Qed.

Lemma check_request_state_bad_unit (P : Platform) (created_at : datetime)
      (state_ : string) (value : Z) (duration : string) (k : nat) :
  In state_ states -> ~ In duration units ->
  check_request_state P created_at (Some state_) (Some value) (Some duration) k
  = (Raise (InvalidDurationError duration), S (S k)).
Proof.
  intros Hs Hd. apply in__true_iff in Hs. unfold states in Hs.
  assert (Hy : (duration =? "y")%string = false)
    by (apply String.eqb_neq; intros ->; apply Hd; cbn; tauto).
  assert (Hm : (duration =? "m")%string = false)
    by (apply String.eqb_neq; intros ->; apply Hd; cbn; tauto).
  assert (Hdd : (duration =? "d")%string = false)
    by (apply String.eqb_neq; intros ->; apply Hd; cbn; tauto).
  assert (Hh : (duration =? "h")%string = false)
    by (apply String.eqb_neq; intros ->; apply Hd; cbn; tauto).
  assert (Hmin : (duration =? "min")%string = false)
    by (apply String.eqb_neq; intros ->; apply Hd; cbn; tauto).
  unfold check_request_state, bind, utcnow, raise.
  now rewrite Hs, Hy, Hm, Hdd, Hh, Hmin.
Qed.

Lemma In_states_dec (s : string) : {In s states} + {~ In s states}.
Proof. apply in_dec, string_dec. Qed.

Lemma In_units_dec (s : string) : {In s units} + {~ In s units}.
Proof. apply in_dec, string_dec. Qed.

Lemma state_error_not_duration_error (s d : string) :
  InvalidStateError s <> InvalidDurationError d.
Proof. unfold InvalidStateError, InvalidDurationError. cbn. congruence. Qed.

(** C1: with state "older" or "newer" and a unit among y, m, d, h, min, the
    filter returns true exactly when the unit's quantity [Q] satisfies
    [Q >= value] for "older" and [Q < value] for "newer"; [Q] is the
    relative-delta years for y, [years*12 + months] for m, the elapsed
    whole days for d, [total_seconds/3600] for h and [total_seconds/60] for
    min, each taken from [created_at] to the UTC clock. *)
Theorem check_request_state_policy (P : Platform) (created_at : datetime)
        (state_ : string) (value : Z) (duration : string) (k : nat) :
  In state_ states -> In duration units ->
  let rel_diff := Dateutil.relativedelta (utc_clock P k) created_at in
  let abs_diff := Datetime.sub (utc_clock P (S k)) created_at in
  let Q := quantity_of rel_diff abs_diff duration in
  fst (check_request_state P created_at (Some state_) (Some value)
                           (Some duration) k)
  = Ok (if (state_ =? "older")%string then q_ge Q value else q_lt Q value)
  /\ Q = (if (duration =? "y")%string then QInt (Dateutil.years rel_diff)
          else if (duration =? "m")%string then
            QInt (Dateutil.years rel_diff * 12 + Dateutil.months rel_diff)
          else if (duration =? "d")%string then QInt (days abs_diff)
          else if (duration =? "h")%string then
            QFloat (Float.div_int (Float.total_seconds abs_diff) 3600)
          else QFloat (Float.div_int (Float.total_seconds abs_diff) 60)).
Proof.
  intros Hs Hd rel_diff abs_diff Q.
  rewrite (check_request_state_valid P created_at state_ value duration k Hs Hd).
  split; reflexivity.
Qed.

(** C5: with all three arguments set, the filter raises the invalid-state
    error exactly when the state is neither "older" nor "newer"; it raises
    the invalid-duration error exactly when the state is one of the two
    and the unit is not among y, m, d, h, min; otherwise it returns. *)
Theorem check_request_state_errors (P : Platform) (created_at : datetime)
        (state_ : string) (value : Z) (duration : string) (k : nat) :
  let r := fst (check_request_state P created_at (Some state_) (Some value)
                                    (Some duration) k) in
  (r = Raise (InvalidStateError state_)
   <-> ~ (state_ = "older" \/ state_ = "newer"))
  /\ (r = Raise (InvalidDurationError duration)
      <-> (state_ = "older" \/ state_ = "newer") /\ ~ In duration units)
  /\ ((exists b, r = Ok b)
      <-> (state_ = "older" \/ state_ = "newer") /\ In duration units).
Proof.
  intros r.
  assert (Hst : In state_ states <-> state_ = "older" \/ state_ = "newer")
    by (unfold states; cbn; intuition congruence).
  rewrite <- Hst.
  pose proof (state_error_not_duration_error state_ duration) as Hne.
  destruct (In_states_dec state_) as [Hs|Hs].
  - destruct (In_units_dec duration) as [Hd|Hd].
    + assert (Hr : r = Ok (passes state_
                 (quantity_of (Dateutil.relativedelta (utc_clock P k) created_at)
                              (Datetime.sub (utc_clock P (S k)) created_at)
                              duration) value))
        by (subst r; now rewrite check_request_state_valid).
      rewrite Hr. split; [|split].
      * split; [discriminate | tauto].
      * split; [discriminate | tauto].
      * split; [tauto | intros _; eexists; reflexivity].
    + assert (Hr : r = Raise (InvalidDurationError duration))
        by (subst r; now rewrite check_request_state_bad_unit).
      rewrite Hr. split; [|split].
      * split; [intros H; injection H as H; now symmetry in H | tauto].
      * split; [tauto | reflexivity].
      * split; [intros [b Hb]; discriminate | tauto].
  - assert (Hr : r = Raise (InvalidStateError state_))
      by (subst r; now rewrite check_request_state_bad_state).
    rewrite Hr. split; [|split].
    + split; [tauto | reflexivity].
    + split; [intros H; injection H as H; congruence | tauto].
    + split; [intros [b Hb]; discriminate | tauto].
Qed.

(** C6: when at least one of state, value and unit is unset, the filter
    returns true whatever the other arguments are, raising nothing (and
    without reading the clock). *)
Theorem check_request_state_unset (P : Platform) (created_at : datetime)
        (state_ : option string) (value : option Z) (duration : option string)
        (k : nat) :
  state_ = None \/ value = None \/ duration = None ->
  check_request_state P created_at state_ value duration k = (Ok true, k).
Proof.
  intros H. unfold check_request_state.
  destruct state_, value, duration; try reflexivity.
  destruct H as [H|[H|H]]; discriminate.
Qed.

(** ** The recency check *)

(** C8, as the code has it: the check returns true exactly when the last
    activity is given, the number of days is given and is not zero, and
    [(now - last_activity).days < days] on the local clock; otherwise it
    returns false. *)
Theorem has_new_comments_spec (P : Platform) (last_activity : option datetime)
        (days_ : option Z) (k : nat) :
  has_new_comments P last_activity days_ k
  = (Ok match last_activity, days_ with
        | Some t, Some n =>
            negb (n =? 0) && (days (Datetime.sub (local_clock P k) t) <? n)
        | _, _ => false
        end,
     S k).
Proof.
  unfold has_new_comments, bind, now, ret.
  destruct last_activity as [t|], days_ as [n|]; cbn; try reflexivity.
  destruct (n =? 0); reflexivity.
Qed.

(** ** Durations *)

Lemma format_duration_run (P : Platform) (created : datetime) (k : nat) :
  format_duration P created k = (Ok (duration_at P k created), S k).
Proof. reflexivity. Qed.

Lemma format_duration_step_coarse (acc : list string) (k : string) (v : Z) :
  (k =? "minute")%string = false ->
  format_duration_step acc (k, v) = (acc ++ to_list (render_component k v))%list.
Proof.
  intros Hk. unfold format_duration_step, render_component. rewrite Hk. cbn [andb].
  destruct (Z.eqb_spec v 1) as [->|H1].
  - reflexivity.
  - destruct (Z.eqb_spec v 0) as [->|H0]; cbn.
    + now rewrite app_nil_r.
    + destruct (v >? 1); cbn; [reflexivity | now rewrite app_nil_r].
Qed.

Lemma format_duration_step_minute (acc : list string) (v : Z) :
  format_duration_step acc ("minute", v)
  = if truthy_list acc then acc
    else (acc ++ to_list (render_component "minute" v))%list.
Proof.
  unfold format_duration_step, render_component.
  change ("minute" =? "minute")%string with true. cbn [andb].
  destruct (truthy_list acc); [reflexivity |].
  destruct (Z.eqb_spec v 1) as [->|H1].
  - reflexivity.
  - destruct (Z.eqb_spec v 0) as [->|H0]; cbn.
    + now rewrite app_nil_r.
    + destruct (v >? 1); cbn; [reflexivity | now rewrite app_nil_r].
Qed.

Lemma format_rel_diff_spec (rel_diff : Dateutil.t) :
  format_rel_diff rel_diff = format_duration_spec rel_diff.
Proof.
  unfold format_rel_diff, format_duration_spec, emitted, time_dict.
  cbn [fold_left].
  rewrite (format_duration_step_coarse _ "year") by reflexivity.
  rewrite (format_duration_step_coarse _ "month") by reflexivity.
  rewrite (format_duration_step_coarse _ "day") by reflexivity.
  rewrite (format_duration_step_coarse _ "hour") by reflexivity.
  rewrite format_duration_step_minute.
  destruct (render_component "year" (Dateutil.years rel_diff)),
    (render_component "month" (Dateutil.months rel_diff)),
    (render_component "day" (Dateutil.days rel_diff)),
    (render_component "hour" (Dateutil.hours rel_diff)),
    (render_component "minute" (Dateutil.minutes rel_diff)); reflexivity.
Qed.

(** C2: [format_duration] walks the relative-delta components in the order
    year, month, day, hour, minute; leaves out a component whose value is
    0; leaves out the minute once a coarser component was emitted; writes
    value 1 in the singular and a value above 1 in the plural; joins the
    emitted components with single spaces; and returns
    "less than 1 minute" when nothing was emitted. *)
Theorem format_duration_walk (P : Platform) (created : datetime) (k : nat) :
  let rel_diff := Dateutil.relativedelta (utc_clock P k) created in
  let part (name : string) (v : Z) : list string :=
    if v =? 0 then []
    else if v =? 1 then ["1 " ++ name]
    else if v >? 1 then [str_of_int v ++ " " ++ name ++ "s"]
    else [] in
  let coarse :=
    (part "year" (Dateutil.years rel_diff)
     ++ part "month" (Dateutil.months rel_diff)
     ++ part "day" (Dateutil.days rel_diff)
     ++ part "hour" (Dateutil.hours rel_diff))%list in
  let parts :=
    match coarse with
    | [] => part "minute" (Dateutil.minutes rel_diff)
    | _ :: _ => coarse
    end in
  format_duration P created k
  = (Ok match parts with
        | [] => "less than 1 minute"
        | _ :: _ => join " " parts
        end,
     S k).
Proof.
  intros rel_diff part coarse parts.
  rewrite format_duration_run. unfold duration_at. fold rel_diff.
  rewrite format_rel_diff_spec.
  assert (Hpart : forall name v, part name v = to_list (render_component name v)).
  { intros name v. subst part. unfold render_component. cbn beta.
    destruct (v =? 0), (v =? 1), (v >? 1); reflexivity. }
  assert (Hparts : parts = emitted rel_diff).
  { subst parts coarse. unfold emitted. now rewrite !Hpart. }
  unfold format_duration_spec. rewrite <- Hparts.
  destruct parts; reflexivity.
Qed.

(** ** Rendering *)

Lemma add_comments_suffix (sep : string) (self : BaseReview) (s : string) :
  add_comments sep self s = s ++ count_suffix sep (comments self).
Proof.
  unfold add_comments, count_suffix.
  destruct (Z.eqb_spec (comments self) 1) as [->|H1].
  - reflexivity.
  - destruct (Z.eqb_spec (comments self) 0) as [->|H0]; cbn.
    + now rewrite append_nil_r.
    + destruct (comments self >? 1); [reflexivity | now rewrite append_nil_r].
Qed.

Lemma add_last_comment_run (P : Platform) (self : BaseReview) (s : string)
      (t : nat) :
  add_last_comment P self s t
  = (Ok (s ++ last_comment_part P self t),
     match last_comment self with Some _ => S t | None => t end).
Proof.
  unfold add_last_comment, last_comment_part.
  destruct (last_comment self) as [lc|].
  - reflexivity.
  - unfold ret. now rewrite append_nil_r.
Qed.

Lemma text_reads_next (self : BaseReview) (k : nat) :
  match last_comment self with Some _ => S (S k) | None => S k end
  = (k + text_reads self)%nat.
Proof. unfold text_reads. destruct (last_comment self); lia. Qed.

Lemma _format_oneline_run (P : Platform) (self : BaseReview) (i N : option Z)
      (k : nat) :
  _format_oneline P self i N k
  = (Ok (render_text P Oneline self k), (k + text_reads self)%nat).
Proof.
  unfold _format_oneline, since, bind. rewrite format_duration_run.
  rewrite add_comments_suffix, add_last_comment_run, text_reads_next.
  unfold render_text. cbn [head count_sep]. now rewrite append_assoc.
Qed.

Lemma _format_indented_run (P : Platform) (self : BaseReview) (i N : option Z)
      (k : nat) :
  _format_indented P self i N k
  = (Ok (render_text P Indented self k), (k + text_reads self)%nat).
Proof.
  unfold _format_indented, since, bind. rewrite format_duration_run.
  rewrite add_comments_suffix, add_last_comment_run, text_reads_next.
  unfold render_text. cbn [head count_sep]. now rewrite append_assoc.
Qed.

Lemma _format_irc_run (P : Platform) (self : BaseReview) (k : nat) :
  _format_irc P self k
  = (Ok (render_text P Irc self k), (k + text_reads self)%nat).
Proof.
  unfold _format_irc, since, bind. rewrite format_duration_run.
  rewrite add_comments_suffix, add_last_comment_run, text_reads_next.
  unfold render_text. cbn [head count_sep]. now rewrite append_assoc.
Qed.

Lemma __json___run (P : Platform) (self : BaseReview)
      (show_last_comment : option Z) (k : nat) :
  exists data, __json__ P self show_last_comment k = (Ok data, S k).
Proof.
  unfold __json__, since, bind. rewrite format_duration_run.
  destruct (last_comment self); eexists; reflexivity.
Qed.

Lemma _format_json_reads (P : Platform) (self : BaseReview) (i N : option Z)
      (show_last_comment : option Z) (k : nat) :
  exists out, _format_json P self i N show_last_comment k
              = (Ok out, (k + json_reads i N)%nat).
Proof.
  unfold _format_json, json_reads.
  destruct (truthy_int i && truthy_int N).
  - unfold bind.
    destruct (__json___run P self show_last_comment k) as [data ->].
    eexists. unfold ret. f_equal. lia.
  - eexists. unfold ret. f_equal. lia.
Qed.

(** With both position and length given and neither zero, the json style
    is the encoded record followed by a comma unless the position is the
    last one. *)
Lemma _format_json_supplied (P : Platform) (self : BaseReview) (i N : Z)
      (show_last_comment : option Z) (k : nat) :
  i <> 0 -> N <> 0 ->
  exists data,
    __json__ P self show_last_comment k = (Ok data, S k)
    /\ _format_json P self (Some i) (Some N) show_last_comment k
       = (Ok (Some (Json.dumps (Json.JDict data)
                      ++ (if i <? N - 1 then "," else ""))),
          S k).
Proof.
  intros Hi HN.
  destruct (__json___run P self show_last_comment k) as [data Hdata].
  exists data. split; [assumption |].
  unfold _format_json, truthy_int.
  apply Z.eqb_neq in Hi, HN. rewrite Hi, HN. cbn [negb andb].
  unfold bind. now rewrite Hdata.
Qed.

(** Without both position and length the json style returns [None]. *)
Lemma _format_json_unsupplied (P : Platform) (self : BaseReview)
      (i N : option Z) (show_last_comment : option Z) (k : nat) :
  i = None \/ N = None ->
  _format_json P self i N show_last_comment k = (Ok None, k).
Proof.
  intros [-> | ->]; unfold _format_json; cbn.
  - reflexivity.
  - now rewrite andb_false_r.
Qed.

(** C3, at the first position: with index 0 and total 1 the json style
    returns [None] instead of the encoded record; the [if i and N] test
    takes position 0 for an absent position. *)
Theorem _format_json_first_position (P : Platform) (self : BaseReview)
        (show_last_comment : option Z) (k : nat) :
  _format_json P self (Some 0) (Some 1) show_last_comment k = (Ok None, k).
Proof. reflexivity. Qed.

(** C7: the dictionary behind the json style has, for a record with a last
    comment, a [last_comment] object with [author] and [created_at], whose
    [body] is present exactly when [show_last_comment] was given; for a
    record without a last comment it has no [last_comment] entry. *)
Theorem __json___last_comment (P : Platform) (self : BaseReview)
        (show_last_comment : option Z) (k : nat) :
  exists data,
    __json__ P self show_last_comment k = (Ok data, S k)
    /\ match last_comment self with
       | Some lc =>
           exists lcd,
             Json.get "last_comment" data = Some (Json.JDict lcd)
             /\ Json.get "author" lcd = Some (Json.JString (author lc))
             /\ Json.get "created_at" lcd
                = Some (Json.JFloat (mktime P (created_at lc)))
             /\ (Json.get "body" lcd = Some (Json.JString (body lc))
                 <-> show_last_comment <> None)
             /\ (Json.get "body" lcd = None <-> show_last_comment = None)
       | None => Json.get "last_comment" data = None
       end.
Proof.
  unfold __json__, since, bind. rewrite format_duration_run.
  destruct (last_comment self) as [lc|]; eexists; (split; [reflexivity |]).
  - eexists. split; [reflexivity |].
    destruct show_last_comment; cbn; repeat split; congruence.
  - reflexivity.
Qed.

(** C10: for a record with a last comment, the oneline, indented and irc
    styles each append the same text
    [", last comment by \x02{author}\x02 {duration} ago"] to what they
    render without the last comment, the duration being [format_duration]
    of the last comment's [created_at]; the author is wrapped in the
    [\x02] control character in all three. *)
Theorem last_comment_suffix_identical (P : Platform) (self : BaseReview)
        (lc : LastComment) (i N : option Z) (k : nat) :
  last_comment self = Some lc ->
  exists duration base1 base2 base3,
    format_duration P (created_at lc) (S k) = (Ok duration, S (S k))
    /\ _format_oneline P (without_last_comment self) i N k = (Ok base1, S k)
    /\ _format_indented P (without_last_comment self) i N k = (Ok base2, S k)
    /\ _format_irc P (without_last_comment self) k = (Ok base3, S k)
    /\ let suffix :=
         ", last comment by " ++ x02 ++ author lc ++ x02 ++ " " ++ duration
           ++ " ago" in
       _format_oneline P self i N k = (Ok (base1 ++ suffix), S (S k))
       /\ _format_indented P self i N k = (Ok (base2 ++ suffix), S (S k))
       /\ _format_irc P self k = (Ok (base3 ++ suffix), S (S k)).
Proof.
  intros Hlc.
  exists (duration_at P (S k) (created_at lc)).
  exists (head Oneline self (duration_at P k (time self))
          ++ count_suffix ", " (comments self)).
  exists (head Indented self (duration_at P k (time self))
          ++ count_suffix nl_tab (comments self)).
  exists (head Irc self (duration_at P k (time self))
          ++ count_suffix ", " (comments self)).
  rewrite !_format_oneline_run, !_format_indented_run, !_format_irc_run.
  unfold render_text, last_comment_part, text_reads. rewrite Hlc.
  cbn [without_last_comment last_comment comments count_sep].
  rewrite !append_nil_r.
  replace (k + 1)%nat with (S k) by lia.
  replace (k + 2)%nat with (S (S k)) by lia.
  unfold last_comment_suffix.
  repeat split; try reflexivity; now rewrite append_assoc.
Qed.

(** C9, for the text styles: in the oneline, indented and irc styles the
    output is the style's head, then the comment-count suffix (nothing for
    0 comments, ["1 comment"] for 1, ["N comments"] above 1, after the
    style's separator), then the last-comment suffix when there is a last
    comment; only the head and the separator depend on the style. *)
Theorem text_styles_uniform (P : Platform) (self : BaseReview)
        (s : text_style) (i N : option Z) (show_last_comment : option Z)
        (k : nat) :
  let t := start_tick s self i N k in
  let count :=
    if comments self =? 0 then ""
    else if comments self =? 1 then count_sep s ++ "1 comment"
    else if comments self >? 1 then
      count_sep s ++ str_of_int (comments self) ++ " comments"
    else "" in
  let last :=
    match last_comment self with
    | Some lc =>
        ", last comment by " ++ x02 ++ author lc ++ x02 ++ " "
          ++ duration_at P (S t) (created_at lc) ++ " ago"
    | None => ""
    end in
  format P self (style_name s) i N show_last_comment k
  = (Ok (Some (head s self (duration_at P t (time self)) ++ count ++ last)),
     (k + 3 * text_reads self + json_reads i N)%nat).
Proof.
  intros t count last. unfold format, bind.
  rewrite _format_oneline_run, _format_indented_run.
  destruct (_format_json_reads P self i N show_last_comment
              (k + text_reads self + text_reads self)) as [out ->].
  rewrite _format_irc_run.
  replace (k + text_reads self + text_reads self + json_reads i N
           + text_reads self)%nat
    with (k + 3 * text_reads self + json_reads i N)%nat by lia.
  replace (k + text_reads self + text_reads self + json_reads i N)%nat
    with (k + 2 * text_reads self + json_reads i N)%nat by lia.
  destruct s; reflexivity.
Qed.

(** ** The filter on a review filed 400 days ago *)

(** C4, as the code has it: with the clock standing at [t] and
    [created_at = t - timedelta(days=400)], the filter with state "older",
    value 1 and unit "y" returns true (one full calendar year has passed),
    and so does the filter with unit "d". *)
Theorem check_request_state_400_days (P : Platform) (t created_at : datetime)
        (k : nat) :
  (forall n, utc_clock P n = t) ->
  valid t ->
  Datetime.sub_days t 400 = Some created_at ->
  check_request_state P created_at (Some "older") (Some 1) (Some "y") k
  = (Ok true, S (S k))
  /\ check_request_state P created_at (Some "older") (Some 1) (Some "d") k
     = (Ok true, S (S k)).
Proof.
  intros Hclock Vt Hcreated.
  destruct (sub_days_spec t created_at 400 Vt Hcreated) as [Vc Hsub].
  rewrite !check_request_state_valid by (cbn; tauto).
  rewrite !Hclock. unfold passes, quantity_of. cbn [String.eqb Ascii.eqb Bool.eqb].
  cbn [q_ge]. rewrite Hsub, (years_of_400_days t created_at Vt Vc Hsub).
  split; reflexivity.
Qed.

(** ** Instances *)

Lemma valid_now0 : valid now0.
Proof. unfold valid; cbn; lia. Defined.

Lemma check_request_state_policy_witness :
  In "older" states /\ In "h" units
  /\ fst (check_request_state P0 created0 (Some "older") (Some 9600)
                              (Some "h") 0%nat)
     = Ok true.
Proof.
  assert (Hs : In "older" states) by (cbn; tauto).
  assert (Hd : In "h" units) by (cbn; tauto).
  split; [exact Hs | split; [exact Hd |]].
  destruct (check_request_state_policy P0 created0 "older" 9600 "h" 0%nat Hs Hd)
    as [H _].
  rewrite H. vm_compute. reflexivity.
Defined.

Lemma check_request_state_unset_witness :
  (@None string = None \/ Some 3 = None \/ Some "week" = None)
  /\ check_request_state P0 created0 None (Some 3) (Some "week") 0%nat
     = (Ok true, 0%nat).
Proof.
  assert (H : @None string = None \/ Some 3 = None \/ Some "week" = None)
    by (left; reflexivity).
  split; [exact H |].
  exact (check_request_state_unset P0 created0 None (Some 3) (Some "week") 0%nat H).
Defined.

Lemma check_request_state_400_days_witness :
  (forall n : nat, utc_clock P0 n = now0)
  /\ valid now0
  /\ Datetime.sub_days now0 400 = Some created0
  /\ check_request_state P0 created0 (Some "older") (Some 1) (Some "y") 0%nat
     = (Ok true, 2%nat)
  /\ check_request_state P0 created0 (Some "older") (Some 1) (Some "d") 0%nat
     = (Ok true, 2%nat).
Proof.
  split; [intros n; reflexivity | split; [exact valid_now0 | split; [reflexivity |]]].
  exact (check_request_state_400_days P0 now0 created0 0%nat
           (fun _ => eq_refl) valid_now0 eq_refl).
Defined.

(** C4, as the specification states it, fails: a review filed 400 days
    before the (standing) clock passes the filter "older than 1 y". *)
Lemma check_request_state_400_days_counterexample :
  Datetime.sub_days now0 400 = Some created0
  /\ fst (check_request_state P0 created0 (Some "older") (Some 1) (Some "y") 0%nat)
     = Ok true.
Proof. split; reflexivity. Qed.

(** C8, as the specification states it, fails: both arguments are given and
    [(now - last_activity).days = -1 < 0 = days], yet the check returns
    false. *)
Lemma has_new_comments_counterexample :
  (days (Datetime.sub (local_clock P0 0%nat) later0) <? 0) = true
  /\ fst (has_new_comments P0 (Some later0) (Some 0) 0%nat) = Ok false.
Proof. split; reflexivity. Qed.

(** C9, as the specification states it, fails for the json style: a record
    with one comment is rendered with the entry ["comments": 1] and the
    text ["1 comment"] occurs nowhere in the output. *)
Lemma json_style_counterexample :
  comments review0 = 1
  /\ exists out,
       fst (format P0 review0 "json" (Some 1) (Some 2) None 0%nat) = Ok (Some out)
       /\ String.index 0%nat "1 comment" out = None
       /\ String.index 0%nat "last comment by" out = None.
Proof.
  split; [reflexivity |].
  eexists. split; [vm_compute; reflexivity | split; vm_compute; reflexivity].
Qed.

Lemma last_comment_suffix_identical_witness :
  last_comment review0 = Some comment0
  /\ exists duration base1 base2 base3,
       format_duration P0 (created_at comment0) 1%nat = (Ok duration, 2%nat)
       /\ _format_oneline P0 (without_last_comment review0) None None 0%nat
          = (Ok base1, 1%nat)
       /\ _format_indented P0 (without_last_comment review0) None None 0%nat
          = (Ok base2, 1%nat)
       /\ _format_irc P0 (without_last_comment review0) 0%nat = (Ok base3, 1%nat)
       /\ let suffix :=
            ", last comment by " ++ x02 ++ author comment0 ++ x02 ++ " "
              ++ duration ++ " ago" in
          _format_oneline P0 review0 None None 0%nat = (Ok (base1 ++ suffix), 2%nat)
          /\ _format_indented P0 review0 None None 0%nat
             = (Ok (base2 ++ suffix), 2%nat)
          /\ _format_irc P0 review0 0%nat = (Ok (base3 ++ suffix), 2%nat).
Proof.
  split; [reflexivity |].
  exact (last_comment_suffix_identical P0 review0 comment0 None None 0%nat eq_refl).
Defined.

(** The specification's sample durations. *)
Example format_duration_samples :
  fst (format_duration P0 (mkdatetime 2015 3 15 12 0 0 0) 0%nat) = Ok "2 years 3 months"
  /\ fst (format_duration P0 (mkdatetime 2017 6 15 11 59 15 0) 0%nat)
     = Ok "less than 1 minute"
  /\ fst (format_duration P0 (mkdatetime 2017 6 14 12 0 0 0) 0%nat) = Ok "1 day".
Proof. repeat split; reflexivity. Qed.

(** The json style at a position that is neither first nor last. *)
Example _format_json_sample :
  fst (_format_json P0 review0 (Some 1) (Some 3) (Some 7) 0%nat)
  = Ok (Some (Json.dumps
                (Json.JDict
                   [("user", Json.JString "alice");
                    ("title", Json.JString "Fix the parser");
                    ("url", Json.JString "http://example.com/pull/1");
                    ("relative_time", Json.JString "2 years 3 months");
                    ("time", Json.JFloat 1426420770);
                    ("comments", Json.JInt 1);
                    ("type", Json.JString "GithubReview");
                    ("image", Json.JNull);
                    ("last_comment",
                      Json.JDict
                        [("author", Json.JString "bob");
                         ("created_at", Json.JFloat 1497441600);
                         ("body", Json.JString "Looks good")])])
              ++ ",")).
Proof. reflexivity. Qed.

(** * Further properties *)

(** ** The time filter: how the two states and the thresholds relate *)

Lemma cmp_int_not_nan (x : Float.float) (n : Z) :
  Float.is_nan x = false -> exists c, Float.cmp_int x n = Some c.
Proof.
  intros H. destruct x; try discriminate; cbn; eexists; reflexivity.
Qed.

Lemma ge_int_mono (x : Float.float) (n n' : Z) :
  n' <= n -> Float.ge_int x n = true -> Float.ge_int x n' = true.
Proof.
  intros Hn. unfold Float.ge_int, Float.cmp_int.
  destruct x as [s|s| |s m e]; try (intros; assumption).
  - destruct (Z.compare_spec 0 n), (Z.compare_spec 0 n');
      try reflexivity; try discriminate; lia.
  - pose proof (Z.pow_pos_nonneg 2 (- e) ltac:(lia)) as Hp.
    destruct (Z.leb_spec 0 e).
    + destruct (Z.compare_spec ((if s then Z.neg m else Z.pos m) * 2 ^ e) n),
        (Z.compare_spec ((if s then Z.neg m else Z.pos m) * 2 ^ e) n');
        try reflexivity; try discriminate; lia.
    + specialize (Hp ltac:(lia)).
      assert (n' * 2 ^ (- e) <= n * 2 ^ (- e)) by nia.
      destruct (Z.compare_spec (if s then Z.neg m else Z.pos m) (n * 2 ^ (- e))),
        (Z.compare_spec (if s then Z.neg m else Z.pos m) (n' * 2 ^ (- e)));
        try reflexivity; try discriminate; lia.
Qed.

Lemma quantity_number (rel_diff : Dateutil.t) (abs_diff : timedelta)
      (unit : string) (value : Z) :
  q_lt (quantity_of rel_diff abs_diff unit) value
  = negb (q_ge (quantity_of rel_diff abs_diff unit) value).
Proof.
  unfold quantity_of.
  destruct (unit =? "y")%string; [| destruct (unit =? "m")%string;
    [| destruct (unit =? "d")%string; [| destruct (unit =? "h")%string]]];
    cbn [q_lt q_ge];
    rewrite ?geb_negb_ltb, ?negb_involutive; try reflexivity.
  - rewrite ge_int_negb_lt_int by apply hours_not_nan.
    now rewrite negb_involutive.
  - rewrite ge_int_negb_lt_int by apply minutes_not_nan.
    now rewrite negb_involutive.
Qed.

Lemma q_ge_mono (rel_diff : Dateutil.t) (abs_diff : timedelta) (unit : string)
      (v v' : Z) :
  v' <= v ->
  q_ge (quantity_of rel_diff abs_diff unit) v = true ->
  q_ge (quantity_of rel_diff abs_diff unit) v' = true.
Proof.
  intros Hv. destruct (quantity_of rel_diff abs_diff unit) as [n|x]; cbn [q_ge].
  - rewrite !Z.geb_leb, !Z.leb_le. lia.
  - now apply ge_int_mono.
Qed.

(** X1: for a unit among y, m, d, h, min, and the same clock readings, the
    filter "newer" passes exactly the reviews the filter "older" rejects. *)
Theorem older_newer_complementary (P : Platform) (created_at : datetime)
        (value : Z) (duration : string) (k : nat) :
  In duration units ->
  exists b,
    check_request_state P created_at (Some "older") (Some value)
                        (Some duration) k = (Ok b, S (S k))
    /\ check_request_state P created_at (Some "newer") (Some value)
                           (Some duration) k = (Ok (negb b), S (S k)).
Proof.
  intros Hd.
  rewrite !check_request_state_valid by (assumption || (cbn; tauto)).
  unfold passes. cbn [String.eqb Ascii.eqb Bool.eqb].
  eexists. split; [reflexivity |]. now rewrite quantity_number.
Qed.

(** X2: lowering the threshold never turns a passing "older" filter into a
    failing one, and raising it never turns a passing "newer" filter into
    a failing one. *)
Theorem threshold_monotone (P : Platform) (created_at : datetime)
        (v v' : Z) (duration : string) (k : nat) :
  In duration units -> v' <= v ->
  (fst (check_request_state P created_at (Some "older") (Some v)
                            (Some duration) k) = Ok true ->
   fst (check_request_state P created_at (Some "older") (Some v')
                            (Some duration) k) = Ok true)
  /\ (fst (check_request_state P created_at (Some "newer") (Some v')
                               (Some duration) k) = Ok true ->
      fst (check_request_state P created_at (Some "newer") (Some v)
                               (Some duration) k) = Ok true).
Proof.
  intros Hd Hv.
  rewrite !check_request_state_valid by (assumption || (cbn; tauto)).
  unfold passes. cbn [String.eqb Ascii.eqb Bool.eqb fst].
  rewrite !quantity_number.
  set (rd := Dateutil.relativedelta _ _). set (ad := Datetime.sub _ _).
  pose proof (q_ge_mono rd ad duration v v' Hv) as Hmono.
  destruct (q_ge (quantity_of rd ad duration) v),
    (q_ge (quantity_of rd ad duration) v'); cbn [negb];
    split; intros H; try reflexivity; try discriminate.
  - specialize (Hmono eq_refl). discriminate.
  - specialize (Hmono eq_refl). discriminate.
Qed.

(** ** Calendar order and the sign of a relative delta *)

Import Ranges.

Lemma _days_before_year_mono (y y' : Z) :
  y <= y' -> _days_before_year y <= _days_before_year y'.
Proof.
  intros H. unfold _days_before_year. Z.div_mod_to_equations. lia.
Qed.

Lemma day_of_year_le (y m d : Z) :
  1 <= m <= 12 -> 1 <= d <= _days_in_month y m ->
  _days_before_month y m + d <= 365 + (if _is_leap y then 1 else 0).
Proof.
  intros Hm. unfold _days_in_month, _days_before_month.
  each_month Hm; cbn -[Z.add]; destruct (_is_leap y); cbn -[Z.add]; lia.
Qed.

Lemma _ymd2ord_lt_year (y1 m1 d1 y2 m2 d2 : Z) :
  1 <= m1 <= 12 -> 1 <= d1 <= _days_in_month y1 m1 ->
  1 <= m2 <= 12 -> 1 <= d2 <= _days_in_month y2 m2 ->
  y1 < y2 -> _ymd2ord y1 m1 d1 < _ymd2ord y2 m2 d2.
Proof.
  intros Hm1 Hd1 Hm2 Hd2 Hy.
  pose proof (day_of_year_le y1 m1 d1 Hm1 Hd1).
  pose proof (day_of_year_bounds y2 m2 d2 Hm2 Hd2).
  pose proof (_days_before_year_succ y1).
  pose proof (_days_before_year_mono (y1 + 1) y2 ltac:(lia)).
  unfold _ymd2ord. lia.
Qed.

Lemma _ymd2ord_lt_month (y m1 d1 m2 d2 : Z) :
  1 <= m1 <= 12 -> 1 <= d1 <= _days_in_month y m1 ->
  1 <= m2 <= 12 -> 1 <= d2 <= _days_in_month y m2 ->
  m1 < m2 -> _ymd2ord y m1 d1 < _ymd2ord y m2 d2.
Proof.
  intros Hm1 Hd1 Hm2 Hd2. revert Hd1 Hd2.
  unfold _ymd2ord, _days_in_month, _days_before_month.
  each_month Hm1; each_month Hm2; cbn -[Z.add]; destruct (_is_leap y);
    cbn -[Z.add]; lia.
Qed.

Lemma sub_total (a b : datetime) :
  seconds (Datetime.sub a b) + days (Datetime.sub a b) * 86400
  = (toordinal a - toordinal b) * 86400
    + (seconds_of_day a - seconds_of_day b)
    + (microsecond a - microsecond b) / 1000000
  /\ 0 <= microseconds (Datetime.sub a b) < 1000000.
Proof.
  unfold Datetime.sub, timedelta_new. cbn [days seconds microseconds].
  Z.div_mod_to_equations. lia.
Qed.

(** A datetime that is not later than another one gives a timedelta whose
    whole seconds are not positive. *)
Lemma sub_not_later (a b : datetime) :
  valid_date a -> valid_time a -> valid_date b -> valid_time b ->
  gt a b = false ->
  seconds (Datetime.sub a b) + days (Datetime.sub a b) * 86400 <= 0.
Proof.
  intros (Hm1 & Hd1) (Hh1 & Hmi1 & Hs1 & Hu1) (Hm2 & Hd2) (Hh2 & Hmi2 & Hs2 & Hu2).
  destruct (sub_total a b) as [-> _].
  unfold gt, cmp, fields. cbn [cmp_tuple]. unfold toordinal, seconds_of_day.
  destruct (Z.compare_spec (year a) (year b)) as [Ey|Ey|Ey]; [| | discriminate].
  2: { intros _.
       pose proof (_ymd2ord_lt_year _ _ _ _ _ _ Hm1 Hd1 Hm2 Hd2 Ey).
       Z.div_mod_to_equations. lia. }
  rewrite Ey in *.
  destruct (Z.compare_spec (month a) (month b)) as [Em|Em|Em]; [| | discriminate].
  2: { intros _.
       pose proof (_ymd2ord_lt_month _ _ _ _ _ Hm1 Hd1 Hm2 Hd2 Em).
       Z.div_mod_to_equations. lia. }
  rewrite Em in *.
  destruct (Z.compare_spec (day a) (day b)) as [Ed|Ed|Ed]; [| | discriminate].
  2: { intros _. unfold _ymd2ord. Z.div_mod_to_equations. lia. }
  rewrite Ed.
  destruct (Z.compare_spec (hour a) (hour b)) as [Eh|Eh|Eh]; [| | discriminate].
  2: { intros _. Z.div_mod_to_equations. lia. }
  destruct (Z.compare_spec (minute a) (minute b)) as [Emi|Emi|Emi]; [| | discriminate].
  2: { intros _. Z.div_mod_to_equations. lia. }
  destruct (Z.compare_spec (second a) (second b)) as [Es|Es|Es]; [| | discriminate].
  2: { intros _. Z.div_mod_to_equations. lia. }
  destruct (Z.compare_spec (microsecond a) (microsecond b)) as [Eu|Eu|Eu];
    [| | discriminate]; intros _; Z.div_mod_to_equations; lia.
Qed.

Lemma shifted_zero (c : datetime) :
  1 <= day c <= _days_in_month (year c) (month c) ->
  Dateutil.shifted c 0 = c.
Proof.
  intros H. unfold Dateutil.shifted, Dateutil.__radd__, Dateutil.monthrange.
  cbn. rewrite Z.add_0_r, Z.min_r by lia. now destruct c.
Qed.

Lemma adjust_gt_result (dt1 dt2 : datetime) (n : nat) :
  1 <= month dt1 <= 12 -> 1 <= month dt2 <= 12 ->
  let months0 := (year dt1 - year dt2) * 12 + (month dt1 - month dt2) in
  Dateutil.adjust (S (S n)) gt 1 dt1 dt2 months0
  = months0 + (if gt dt1 (Dateutil.shifted dt2 months0) then 1 else 0).
Proof.
  intros H1 H2 months0. cbn [Dateutil.adjust].
  destruct (gt dt1 (Dateutil.shifted dt2 months0)); [| lia].
  assert (E1 : gt dt1 (Dateutil.shifted dt2 (months0 + 1)) = false).
  { destruct (shifted_fields dt2 (months0 + 1) H2) as (y & m & -> & Hym & Hm).
    unfold gt. rewrite cmp_year_month_lt; [reflexivity | assumption | exact Hm |].
    cbn [year month]. subst months0. lia. }
  now rewrite E1.
Qed.

Lemma months_apart_sign (a b : datetime) :
  1 <= month a <= 12 -> 1 <= month b <= 12 ->
  (lt a b = false -> 0 <= (year a - year b) * 12 + (month a - month b))
  /\ (lt a b = true -> (year a - year b) * 12 + (month a - month b) <= 0).
Proof.
  intros Ha Hb. unfold lt. split; intros H.
  - destruct (Z.lt_ge_cases (year a * 12 + month a) (year b * 12 + month b));
      [| lia].
    rewrite cmp_year_month_lt in H by assumption. discriminate.
  - destruct (Z.lt_ge_cases (year b * 12 + month b) (year a * 12 + month a));
      [| lia].
    rewrite cmp_year_month_gt in H by assumption. discriminate.
Qed.

Lemma carry_nonpos (limit base lo : Z) :
  0 < base -> lo <= 0 ->
  fst (Dateutil.carry limit base lo 0) <= 0
  /\ snd (Dateutil.carry limit base lo 0) <= 0.
Proof.
  intros Hb Hlo. unfold Dateutil.carry, Dateutil._sign.
  destruct (limit <? Z.abs lo); [| cbn [fst snd]; lia].
  destruct (Z.ltb_spec lo 0); cbn [fst snd].
  - pose proof (Z.mod_pos_bound (lo * -1) base Hb).
    pose proof (Z.div_pos (lo * -1) base ltac:(lia) Hb). lia.
  - assert (lo = 0) as -> by lia. cbn [Z.mul].
    rewrite Zmod_0_l, Zdiv_0_l. lia.
Qed.

Lemma fix_fields (y m s us : Z) :
  let r := Dateutil._fix (Dateutil.mk y m 0 0 0 s us) in
  (Dateutil.months r, Dateutil.years r) = Dateutil.carry 11 12 m y
  /\ (0 <= us < 1000000 -> s <= 0 ->
      Dateutil.days r <= 0 /\ Dateutil.hours r <= 0 /\ Dateutil.minutes r <= 0).
Proof.
  cbv zeta. unfold Dateutil._fix.
  cbn [Dateutil.years Dateutil.months Dateutil.days Dateutil.hours
       Dateutil.minutes Dateutil.seconds Dateutil.microseconds].
  split.
  - destruct (Dateutil.carry 999999 1000000 us s) as [us' s'].
    destruct (Dateutil.carry 59 60 s' 0) as [s'' mi].
    destruct (Dateutil.carry 59 60 mi 0) as [mi' h].
    destruct (Dateutil.carry 23 24 h 0) as [h' d].
    destruct (Dateutil.carry 11 12 m y) as [mo yy]. reflexivity.
  - intros Hus Hs.
    assert (E : Dateutil.carry 999999 1000000 us s = (us, s)).
    { unfold Dateutil.carry. destruct (Z.ltb_spec 999999 (Z.abs us)); [lia | reflexivity]. }
    rewrite E.
    pose proof (carry_nonpos 59 60 s ltac:(lia) Hs) as [_ H1].
    destruct (Dateutil.carry 59 60 s 0) as [s' mi]. cbn [snd] in H1.
    pose proof (carry_nonpos 59 60 mi ltac:(lia) H1) as [H2 H3].
    destruct (Dateutil.carry 59 60 mi 0) as [mi' h]. cbn [fst snd] in H2, H3.
    pose proof (carry_nonpos 23 24 h ltac:(lia) H3) as [H4 H5].
    destruct (Dateutil.carry 23 24 h 0) as [h' d]. cbn [fst snd] in H4, H5.
    destruct (Dateutil.carry 11 12 m y) as [mo yy].
    cbn [Dateutil.days Dateutil.hours Dateutil.minutes]. lia.
Qed.

Lemma _set_months_sign (M : Z) :
  (0 <= M -> 0 <= fst (Dateutil._set_months M)
             /\ 0 <= snd (Dateutil._set_months M) <= 11
             /\ fst (Dateutil._set_months M) * 12 + snd (Dateutil._set_months M) = M)
  /\ (M <= 0 -> fst (Dateutil._set_months M) <= 0
                /\ -11 <= snd (Dateutil._set_months M) <= 0).
Proof.
  unfold Dateutil._set_months, Dateutil._sign.
  destruct (Z.ltb_spec 11 (Z.abs M)); [destruct (Z.ltb_spec M 0) |];
    cbn [fst snd]; split; intros; Z.div_mod_to_equations; lia.
Qed.

Lemma carry_small (m y : Z) : -11 <= m <= 11 -> Dateutil.carry 11 12 m y = (m, y).
Proof.
  intros H. unfold Dateutil.carry.
  destruct (Z.ltb_spec 11 (Z.abs m)); [lia | reflexivity].
Qed.

Lemma shifted_valid (b : datetime) (M : Z) :
  valid b ->
  valid_date (Dateutil.shifted b M) /\ valid_time (Dateutil.shifted b M).
Proof.
  intros (_ & Hm & Hd & Ht).
  destruct (shifted_fields b M Hm) as (y & m & -> & _ & Hm').
  unfold valid_date, valid_time. cbn [year month day hour minute second microsecond].
  split; [| exact Ht]. split; [exact Hm' |].
  assert (28 <= _days_in_month y m).
  { unfold _days_in_month. each_month Hm'; cbn; destruct (_is_leap y); cbn; lia. }
  lia.
Qed.

(** The relative delta from an earlier (or equal) datetime has years and
    months that are not negative, the months below 12. *)
Lemma relativedelta_past (a b : datetime) :
  valid a -> valid b -> lt a b = false ->
  0 <= Dateutil.years (Dateutil.relativedelta a b)
  /\ 0 <= Dateutil.months (Dateutil.relativedelta a b) <= 11.
Proof.
  intros Va Vb Hlt.
  pose proof Va as (_ & Hma & _). pose proof Vb as (_ & Hmb & Hdb & _).
  unfold Dateutil.relativedelta. rewrite Hlt.
  rewrite adjust_lt_result by assumption.
  set (months0 := (year a - year b) * 12 + (month a - month b)).
  assert (H0 : 0 <= months0) by (apply (months_apart_sign a b); assumption).
  set (M := months0 - _).
  assert (HM : 0 <= M).
  { subst M. destruct (Z.eq_dec months0 0) as [E|E].
    - rewrite E, shifted_zero, Hlt by assumption. lia.
    - destruct (lt a (Dateutil.shifted b months0)); lia. }
  destruct (_set_months_sign M) as [Hs _]. specialize (Hs HM).
  destruct (Dateutil._set_months M) as [y m]. cbn [fst snd] in Hs.
  destruct (fix_fields y m
              (seconds (Datetime.sub a (Dateutil.__radd__ y m b))
               + days (Datetime.sub a (Dateutil.__radd__ y m b)) * 86400)
              (microseconds (Datetime.sub a (Dateutil.__radd__ y m b))))
    as [Hf _].
  cbv zeta in Hf. rewrite carry_small in Hf by lia.
  pose proof (f_equal fst Hf) as Hmo. pose proof (f_equal snd Hf) as Hy.
  cbn [fst snd] in Hmo, Hy. lia.
Qed.

(** The relative delta to a later datetime has no positive year, month,
    day, hour or minute. *)
Lemma relativedelta_future (a b : datetime) :
  valid a -> valid b -> lt a b = true ->
  let r := Dateutil.relativedelta a b in
  Dateutil.years r <= 0 /\ Dateutil.months r <= 0 /\ Dateutil.days r <= 0
  /\ Dateutil.hours r <= 0 /\ Dateutil.minutes r <= 0.
Proof.
  intros Va Vb Hlt.
  pose proof Va as (_ & Hma & Hda & Hta). pose proof Vb as (_ & Hmb & Hdb & _).
  cbv zeta. unfold Dateutil.relativedelta. rewrite Hlt.
  pose proof (adjust_exits a b (Z.to_nat (Z.abs ((year a - year b) * 12
                                                   + (month a - month b))))
                Hma Hmb) as [Hexit _].
  specialize (Hexit Hlt).
  rewrite adjust_gt_result in Hexit |- * by assumption.
  set (months0 := (year a - year b) * 12 + (month a - month b)) in *.
  assert (H0 : months0 <= 0) by (apply (months_apart_sign a b); assumption).
  set (M := months0 + _) in *.
  assert (HM : M <= 0).
  { subst M. destruct (Z.eq_dec months0 0) as [E|E].
    - assert (Hgt : gt a b = false)
        by (unfold gt; unfold lt in Hlt; destruct (cmp a b); congruence).
      rewrite E, shifted_zero, Hgt by assumption. lia.
    - destruct (gt a (Dateutil.shifted b months0)); lia. }
  destruct (shifted_valid b M Vb) as [Vd Vt].
  pose proof (sub_not_later a (Dateutil.shifted b M) (conj Hma Hda) Hta Vd Vt Hexit)
    as Hs.
  destruct (sub_total a (Dateutil.shifted b M)) as [_ Hus].
  unfold Dateutil.shifted in Hs, Hus.
  destruct (_set_months_sign M) as [_ Hsign]. specialize (Hsign HM).
  destruct (Dateutil._set_months M) as [y m]. cbn [fst snd] in Hsign.
  destruct (fix_fields y m
              (seconds (Datetime.sub a (Dateutil.__radd__ y m b))
               + days (Datetime.sub a (Dateutil.__radd__ y m b)) * 86400)
              (microseconds (Datetime.sub a (Dateutil.__radd__ y m b))))
    as [Hf Hd].
  cbv zeta in Hf, Hd. rewrite carry_small in Hf by lia.
  pose proof (f_equal fst Hf) as Hmo. pose proof (f_equal snd Hf) as Hy.
  cbn [fst snd] in Hmo, Hy. specialize (Hd Hus Hs). lia.
Qed.

(** X3: for a review filed at or before the clock reading, the unit "y"
    with value [v] and the unit "m" with value [12 * v] give the same
    result, for either state (and the same error for any other state). *)
Theorem year_is_twelve_months (P : Platform) (created_at : datetime)
        (state_ : string) (v : Z) (k : nat) :
  valid (utc_clock P k) -> valid created_at ->
  lt (utc_clock P k) created_at = false ->
  check_request_state P created_at (Some state_) (Some v) (Some "y") k
  = check_request_state P created_at (Some state_) (Some (12 * v)) (Some "m") k.
Proof.
  intros Vt Vc Hlt.
  destruct (In_states_dec state_) as [Hs|Hs].
  - rewrite !check_request_state_valid by (assumption || (cbn; tauto)).
    destruct (relativedelta_past _ _ Vt Vc Hlt) as [Hy Hm].
    unfold passes, quantity_of. cbn [String.eqb Ascii.eqb Bool.eqb q_ge q_lt].
    set (y := Dateutil.years _) in *. set (m := Dateutil.months _) in *.
    replace (y * 12 + m >=? 12 * v) with (y >=? v)
      by (rewrite !Z.geb_leb; destruct (Z.leb_spec v y), (Z.leb_spec (12 * v) (y * 12 + m));
          try reflexivity; lia).
    replace (y * 12 + m <? 12 * v) with (y <? v)
      by (destruct (Z.ltb_spec y v), (Z.ltb_spec (y * 12 + m) (12 * v));
          try reflexivity; lia).
    reflexivity.
  - now rewrite !check_request_state_bad_state.
Qed.

(** ** Durations: what the text shows and what it drops *)

Lemma str_of_int_head (v : Z) :
  1 <= v -> exists c rest, str_of_int v = String c rest /\ c <> "l"%char.
Proof.
  intros H. destruct v as [|p|p]; try lia.
  unfold str_of_int. cbn [Z.to_int].
  unfold NilZero.string_of_int, NilZero.string_of_uint.
  destruct (Pos.to_uint p); cbn; eexists; eexists; (split; [reflexivity | discriminate]).
Qed.

Lemma render_component_none (k : string) (v : Z) :
  v < 1 -> render_component k v = None.
Proof.
  intros H. unfold render_component.
  destruct (Z.eqb_spec v 0); [reflexivity |].
  destruct (Z.eqb_spec v 1); [lia |].
  destruct (Z.gtb_spec v 1); [lia | reflexivity].
Qed.

Lemma render_component_some (k : string) (v : Z) :
  1 <= v ->
  exists c rest, render_component k v = Some (String c rest) /\ c <> "l"%char.
Proof.
  intros H. unfold render_component.
  destruct (Z.eqb_spec v 0); [lia |].
  destruct (Z.eqb_spec v 1).
  - cbn. eexists; eexists; (split; [reflexivity | discriminate]).
  - destruct (Z.gtb_spec v 1); [| lia].
    destruct (str_of_int_head v H) as (c & rest & -> & Hc).
    cbn. eexists; eexists; (split; [reflexivity | exact Hc]).
Qed.

Ltac component v k :=
  destruct (Z.lt_ge_cases v 1) as [?H|?H];
  [ rewrite (render_component_none k v) by assumption
  | let c := fresh "c" in
    let rest := fresh "rest" in
    let E := fresh "E" in
    let Hc := fresh "Hc" in
    destruct (render_component_some k v) as (c & rest & E & Hc);
    [assumption | rewrite E] ].

(** X4: the text is "less than 1 minute" exactly when none of the years,
    months, days, hours and minutes of the relative delta reaches 1. *)
Theorem format_duration_less_than_1_minute (P : Platform) (created : datetime)
        (k : nat) :
  let rel_diff := Dateutil.relativedelta (utc_clock P k) created in
  fst (format_duration P created k) = Ok "less than 1 minute"
  <-> Dateutil.years rel_diff < 1 /\ Dateutil.months rel_diff < 1
      /\ Dateutil.days rel_diff < 1 /\ Dateutil.hours rel_diff < 1
      /\ Dateutil.minutes rel_diff < 1.
Proof.
  intros rel_diff. rewrite format_duration_run. unfold duration_at.
  fold rel_diff. rewrite format_rel_diff_spec. cbn [fst].
  unfold format_duration_spec, emitted.
  component (Dateutil.years rel_diff) "year";
    component (Dateutil.months rel_diff) "month";
    component (Dateutil.days rel_diff) "day";
    component (Dateutil.hours rel_diff) "hour";
    component (Dateutil.minutes rel_diff) "minute";
    cbn [to_list app join];
    (split; [intros Hl | intros Hr]); try lia; try reflexivity;
    exfalso;
    repeat match goal with
      | H : context [String.append (String _ _) _] |- _ => cbn [String.append] in H
      end;
    injection Hl as Hl; congruence.
Qed.

(** X5: a review whose creation time lies after the clock reading is shown
    as "less than 1 minute". *)
Theorem format_duration_future (P : Platform) (created : datetime) (k : nat) :
  valid (utc_clock P k) -> valid created ->
  lt (utc_clock P k) created = true ->
  format_duration P created k = (Ok "less than 1 minute", S k).
Proof.
  intros Vt Vc Hlt.
  destruct (relativedelta_future _ _ Vt Vc Hlt) as (Hy & Hmo & Hd & Hh & Hmi).
  rewrite format_duration_run. unfold duration_at.
  rewrite format_rel_diff_spec. unfold format_duration_spec, emitted.
  rewrite !render_component_none by lia. reflexivity.
Qed.


Lemma join_cons (sep x : string) (l : list string) :
  exists tail, join sep (x :: l) = x ++ tail.
Proof.
  destruct l as [|y l]; cbn [join].
  - exists "". now rewrite append_nil_r.
  - eexists. reflexivity.
Qed.

Lemma render_component_count (k : string) (v : Z) :
  1 <= v ->
  exists sfx, render_component k v = Some (str_of_int v ++ " " ++ k ++ sfx).
Proof.
  intros H. unfold render_component.
  destruct (Z.eqb_spec v 0); [lia |].
  destruct (Z.eqb_spec v 1) as [->|H1].
  - exists "". now rewrite append_nil_r.
  - destruct (Z.gtb_spec v 1); [| lia]. exists "s". reflexivity.
Qed.

(** X18: a review that passes the filter "older than [v] years", [v] at
    least 1, is shown with its count of years first, at the same clock
    reading. *)
Theorem older_than_years_shows_years (P : Platform) (created : datetime)
        (v : Z) (k : nat) :
  1 <= v ->
  fst (check_request_state P created (Some "older") (Some v) (Some "y") k)
  = Ok true ->
  exists rest,
    fst (format_duration P created k)
    = Ok (str_of_int (Dateutil.years
                        (Dateutil.relativedelta (utc_clock P k) created))
          ++ " year" ++ rest).
Proof.
  intros Hv. rewrite check_request_state_valid by (cbn; tauto).
  unfold passes, quantity_of. cbn [String.eqb Ascii.eqb Bool.eqb q_ge fst].
  intros H. injection H as H. rewrite Z.geb_leb, Z.leb_le in H.
  rewrite format_duration_run. unfold duration_at.
  rewrite format_rel_diff_spec. unfold format_duration_spec, emitted.
  set (y := Dateutil.years _) in *.
  destruct (render_component_count "year" y ltac:(lia)) as [sfx ->].
  cbn [to_list app].
  match goal with
  | |- context [join " " (?x :: ?l)] => destruct (join_cons " " x l) as [tail ->]
  end.
  exists (sfx ++ tail). cbn [fst]. f_equal.
  rewrite !append_assoc. reflexivity.
Qed.

(** ** Rendering: the dispatcher and the json style *)

Lemma format_run (P : Platform) (self : BaseReview) (style : string)
      (i N : option Z) (show_last_comment : option Z) (k : nat) :
  exists json,
    _format_json P self i N show_last_comment (k + 2 * text_reads self)%nat
    = (Ok json, (k + 2 * text_reads self + json_reads i N)%nat)
    /\ format P self style i N show_last_comment k
       = lookup_style style
           [("oneline", Some (render_text P Oneline self k));
            ("indented",
              Some (render_text P Indented self (k + text_reads self)%nat));
            ("json", json);
            ("irc",
              Some (render_text P Irc self
                      (k + 2 * text_reads self + json_reads i N)%nat))]
           (k + 3 * text_reads self + json_reads i N)%nat.
Proof.
  destruct (_format_json_reads P self i N show_last_comment
              (k + 2 * text_reads self)%nat) as [out Hout].
  exists out. split; [exact Hout |].
  unfold format, bind.
  rewrite _format_oneline_run, _format_indented_run.
  replace (k + text_reads self + text_reads self)%nat
    with (k + 2 * text_reads self)%nat by lia.
  rewrite Hout, _format_irc_run.
  replace (k + 2 * text_reads self + json_reads i N + text_reads self)%nat
    with (k + 3 * text_reads self + json_reads i N)%nat by lia.
  reflexivity.
Qed.

(** X7: [format] raises [KeyError(style)] exactly when the style is none of
    oneline, indented, json and irc; and whatever the style, known or
    not, all four renderings are made first: the clock is read for each
    of them. *)
Theorem format_unknown_style (P : Platform) (self : BaseReview)
        (style : string) (i N : option Z) (show_last_comment : option Z)
        (k : nat) :
  (fst (format P self style i N show_last_comment k) = Raise (KeyError style)
   <-> ~ In style ["oneline"; "indented"; "json"; "irc"])
  /\ ((exists out, fst (format P self style i N show_last_comment k) = Ok out)
      <-> In style ["oneline"; "indented"; "json"; "irc"])
  /\ snd (format P self style i N show_last_comment k)
     = (k + 3 * text_reads self + json_reads i N)%nat.
Proof.
  destruct (format_run P self style i N show_last_comment k) as (json & _ & ->).
  cbn [lookup_style In].
  destruct (String.eqb_spec "oneline" style) as [<-|H1].
  { cbn. repeat split; try tauto; try discriminate. intros _. eexists. reflexivity. }
  destruct (String.eqb_spec "indented" style) as [<-|H2].
  { cbn. repeat split; try tauto; try discriminate. intros _. eexists. reflexivity. }
  destruct (String.eqb_spec "json" style) as [<-|H3].
  { cbn. repeat split; try tauto; try discriminate. intros _. eexists. reflexivity. }
  destruct (String.eqb_spec "irc" style) as [<-|H4].
  { cbn. repeat split; try tauto; try discriminate. intros _. eexists. reflexivity. }
  cbn. repeat split; try tauto.
  intros [out Hout]. discriminate.
Qed.

(** X8: the json style of [format] is [_format_json] run after the oneline
    and indented renderings, that is two text renderings later on the
    clock. *)
Theorem format_json_style (P : Platform) (self : BaseReview) (i N : option Z)
        (show_last_comment : option Z) (k : nat) :
  fst (format P self "json" i N show_last_comment k)
  = fst (_format_json P self i N show_last_comment (k + 2 * text_reads self)%nat).
Proof.
  destruct (format_run P self "json" i N show_last_comment k) as (json & -> & ->).
  reflexivity.
Qed.

Lemma dumps_dict_shape (item : string * Json.value)
      (items : list (string * Json.value)) :
  exists body, Json.dumps (Json.JDict (item :: items)) = "{" ++ body ++ "}".
Proof.
  exists (Json.newline_indent 1
          ++ Py.join ("," ++ Json.newline_indent 1)
               (map (fun kv => Json.encode_string (fst kv) ++ ": "
                               ++ Json.dumps_at 1 (snd kv))
                    (item :: items))
          ++ Json.newline_indent 0).
  unfold Json.dumps. cbn [Json.dumps_at].
  now rewrite (append_assoc (Json.newline_indent 1)), (append_assoc (Py.join _ _)).
Qed.

(** X9: what [_format_json] returns is either [None] (position or length
    unset or zero) or one JSON object text, from its opening to its
    closing brace, followed by a comma exactly when the position is before
    the last one. *)
Theorem _format_json_shape (P : Platform) (self : BaseReview) (i N : option Z)
        (show_last_comment : option Z) (k : nat) :
  match i, N with
  | Some i', Some N' =>
      if (i' =? 0) || (N' =? 0) then
        _format_json P self i N show_last_comment k = (Ok None, k)
      else
        exists body,
          _format_json P self i N show_last_comment k
          = (Ok (Some ("{" ++ body ++ "}" ++ (if i' <? N' - 1 then "," else ""))),
             S k)
  | _, _ => _format_json P self i N show_last_comment k = (Ok None, k)
  end.
Proof.
  destruct i as [i'|], N as [N'|]; try reflexivity.
  - unfold _format_json, truthy_int.
    destruct (i' =? 0); [reflexivity |]. destruct (N' =? 0); [reflexivity |].
    cbn [negb andb orb]. unfold bind.
    unfold __json__, since, bind. rewrite format_duration_run.
    destruct (last_comment self) as [lc|]; unfold ret; cbn [List.app];
      match goal with
      | |- context [Json.dumps (Json.JDict (?x :: ?xs))] =>
          destruct (dumps_dict_shape x xs) as [body ->]
      end;
      exists body; now rewrite append_assoc, append_assoc.
  - unfold _format_json. cbn. now rewrite andb_false_r.
Qed.

(** X10: the dictionary of the json style has the entries user, title,
    url, relative_time, time, comments, type and image, in this order,
    followed by last_comment when the record has a last comment; the
    project name and the project url are never part of it. *)
Theorem __json___keys (P : Platform) (self : BaseReview)
        (show_last_comment : option Z) (k : nat) :
  exists data,
    __json__ P self show_last_comment k = (Ok data, S k)
    /\ map fst data
       = (["user"; "title"; "url"; "relative_time"; "time"; "comments";
           "type"; "image"]
          ++ match last_comment self with
             | Some _ => ["last_comment"]
             | None => []
             end)%list
    /\ Json.get "relative_time" data
       = Some (Json.JString (duration_at P k (time self)))
    /\ Json.get "comments" data = Some (Json.JInt (comments self))
    /\ Json.get "type" data = Some (Json.JString (class_name self))
    /\ Json.get "project_name" data = None
    /\ Json.get "project_url" data = None.
Proof.
  unfold __json__, since, bind. rewrite format_duration_run.
  destruct (last_comment self); eexists; repeat split; reflexivity.
Qed.

(** X11: the oneline, indented and irc styles show nothing but the user,
    the title, the url, the age, the number of comments and the author
    and age of the last comment: two records that agree on these are
    rendered alike, whatever their image, project, class and last-comment
    body. *)
Theorem text_styles_ignore (P : Platform) (self self' : BaseReview)
        (s : text_style) (i N : option Z) (show_last_comment : option Z)
        (k : nat) :
  user self = user self' -> title self = title self' ->
  url self = url self' -> time self = time self' ->
  comments self = comments self' ->
  option_map (fun lc => (author lc, created_at lc)) (last_comment self)
  = option_map (fun lc => (author lc, created_at lc)) (last_comment self') ->
  fst (format P self (style_name s) i N show_last_comment k)
  = fst (format P self' (style_name s) i N show_last_comment k).
Proof.
  intros Hu Ht Hurl Htime Hc Hlc.
  destruct (format_run P self (style_name s) i N show_last_comment k)
    as (json & _ & ->).
  destruct (format_run P self' (style_name s) i N show_last_comment k)
    as (json' & _ & ->).
  assert (Hreads : text_reads self = text_reads self').
  { unfold text_reads. destruct (last_comment self), (last_comment self');
      try reflexivity; discriminate. }
  assert (Hrender : forall st t, render_text P st self t = render_text P st self' t).
  { intros st t. unfold render_text, last_comment_part.
    rewrite Htime, Hc.
    assert (Hh : forall sn, head st self sn = head st self' sn)
      by (intros sn; destruct st; cbn [head]; rewrite Hu, Ht, Hurl; reflexivity).
    rewrite Hh.
    destruct (last_comment self) as [lc|], (last_comment self') as [lc'|];
      try discriminate; [| reflexivity].
    cbn [option_map] in Hlc. injection Hlc as -> ->. reflexivity. }
  rewrite Hreads, !Hrender. destruct s; reflexivity.
Qed.

(** ** The recency check: more days *)

(** X12: a last activity that is new for [n] days is new for every larger
    number of days that is not 0. *)
Theorem has_new_comments_monotone (P : Platform) (last_activity : option datetime)
        (n n' : Z) (k : nat) :
  n <= n' -> n' <> 0 ->
  fst (has_new_comments P last_activity (Some n) k) = Ok true ->
  fst (has_new_comments P last_activity (Some n') k) = Ok true.
Proof.
  intros Hn Hn'. unfold has_new_comments, bind, now, ret.
  destruct last_activity as [t|]; cbn; [| intros H; discriminate].
  apply Z.eqb_neq in Hn'. rewrite Hn'.
  destruct (n =? 0); cbn; [intros H; discriminate |].
  intros H. injection H as H. apply Z.ltb_lt in H.
  f_equal. apply Z.ltb_lt. lia.
Qed.

(** ** The platform calls *)

Import Service ServiceSample.

Lemma lstrip_all_space (ws : string) : all_space ws = true -> lstrip ws = "".
Proof.
  induction ws as [|c ws IH]; cbn; [reflexivity |].
  intros H. apply andb_true_iff in H as [Hc Hws]. rewrite Hc. now apply IH.
Qed.

Lemma rstrip_all_space (ws : string) : all_space ws = true -> rstrip ws = "".
Proof.
  induction ws as [|c ws IH]; cbn; [reflexivity |].
  intros H. apply andb_true_iff in H as [Hc Hws]. now rewrite IH, Hc.
Qed.

Lemma rstrip_app (t ws : string) :
  all_space ws = true -> rstrip (t ++ ws) = rstrip t.
Proof.
  intros H. induction t as [|c t IH]; cbn.
  - now apply rstrip_all_space.
  - now rewrite IH.
Qed.

Lemma strip_app_right (s ws : string) :
  all_space ws = true -> strip (s ++ ws) = strip s.
Proof.
  intros H. unfold strip. induction s as [|c s IH].
  - cbn. now rewrite lstrip_all_space.
  - cbn [String.append lstrip]. destruct (is_space c); [exact IH |].
    now apply (rstrip_app (String c s)).
Qed.

Lemma strip_app_left (ws s : string) :
  all_space ws = true -> strip (ws ++ s) = strip s.
Proof.
  unfold strip. induction ws as [|c ws IH]; cbn; [reflexivity |].
  intros H. apply andb_true_iff in H as [Hc Hws]. rewrite Hc. now apply IH.
Qed.

Lemma prefix_app (p s : string) : String.prefix p (p ++ s) = true.
Proof.
  induction p as [|c p IH]; cbn; [now destruct s |].
  destruct (ascii_dec c c); [exact IH | congruence].
Qed.

Lemma drop_app (p s : string) : drop (String.length p) (p ++ s) = s.
Proof.
  induction p as [|c p IH]; cbn; [now destruct s | exact IH].
Qed.

Section PlatformCalls.
Variable object : Type.
Variable loads : string -> outcome object.
Variable decode : string -> string -> outcome string.
Variable undecoded : string -> outcome string.
Variable format_bytes : string -> string.
Variables headers verify : Type.

Local Notation "'decode_response'" :=
  (_decode_response object loads decode undecoded format_bytes).
Local Notation "'call_api'" :=
  (_call_api object loads decode undecoded format_bytes headers verify).

(** X13: white space around the content of a response has no influence on
    what [_decode_response] returns or raises. *)
Theorem _decode_response_strips (ws1 ws2 text : string)
        (enc : option string) (j : outcome object) (st : outcome unit) :
  all_space ws1 = true -> all_space ws2 = true ->
  decode_response (mkResponse (ws1 ++ text ++ ws2) enc j st)
  = decode_response (mkResponse text enc j st).
Proof.
  intros H1 H2. unfold _decode_response.
  cbn [content encoding].
  now rewrite strip_app_left, strip_app_right.
Qed.

(** X14: a [ValueError] that leaves [_decode_response] always carries a
    message that starts with "Invalid json content: ". *)
Theorem _decode_response_error_message (response : Response object)
        (msg : string) :
  decode_response response = Raises (ValueError msg) ->
  exists shown, msg = "Invalid json content: " ++ shown.
Proof.
  unfold _decode_response.
  destruct (if truthy_str (encoding response) then _ else _) as [text|[m|m|n]].
  - destruct (loads _) as [v|[m|m|n]]; intros H; try discriminate.
    injection H as <-. eexists. reflexivity.
  - intros H. injection H as <-. eexists. reflexivity.
  - discriminate.
  - discriminate.
Qed.

(** X15: when the decoded content starts with the Gerrit prefix, the parser
    is given what follows the prefix (one prefix only), and the message of
    a parse error shows the content without the prefix. *)
Theorem _decode_response_gerrit_prefix (response : Response object)
        (enc body : string) :
  encoding response = Some enc -> enc <> "" ->
  decode (strip (content response)) enc = Returns (gerrit_json_prefix ++ body) ->
  decode_response response
  = match loads body with
    | Raises (ValueError _) =>
        Raises (ValueError ("Invalid json content: " ++ body))
    | r => r
    end.
Proof.
  intros He Hne Hd. unfold _decode_response.
  rewrite He. cbn [truthy_str].
  destruct enc as [|c enc]; [congruence |].
  now rewrite Hd, prefix_app, drop_app.
Qed.

(** X16: [_call_api] returns a value exactly when the request returned a
    response, [raise_for_status] raised nothing, and either
    [response.json()] returned that value or it raised a [ValueError] and
    [_decode_response] returned that value. *)
Theorem _call_api_returns (self : BaseService object headers verify)
        (url method : string) (ssl_verify : verify) (x : object) :
  call_api self url method ssl_verify = Returns x
  <-> exists response,
        session_request _ _ _ self method url (header _ _ _ self) ssl_verify
        = Returns response
        /\ raise_for_status response = Returns tt
        /\ (json response = Returns x
            \/ ((exists m, json response = Raises (ValueError m))
                /\ decode_response response = Returns x)).
Proof.
  unfold _call_api, get_response.
  destruct (session_request _ _ _ self method url (header _ _ _ self) ssl_verify)
    as [response|e].
  - destruct (raise_for_status response) as [[]|e] eqn:Hst.
    + destruct (json response) as [v|[m|m|n]] eqn:Hj; split.
      * intros H. exists response. rewrite Hst, Hj. repeat split. left. exact H.
      * intros (r & Hr & _ & [H|[[m Hm] _]]); injection Hr as <-; congruence.
      * intros H. exists response. rewrite Hst, Hj. repeat split. right.
        split; [eexists; reflexivity | exact H].
      * intros (r & Hr & _ & [H|[_ H]]); injection Hr as <-; congruence.
      * discriminate.
      * intros (r & Hr & _ & [H|[[m' Hm] _]]); injection Hr as <-; congruence.
      * discriminate.
      * intros (r & Hr & _ & [H|[[m' Hm] _]]); injection Hr as <-; congruence.
    + split; [discriminate |].
      intros (r & Hr & Hs & _). injection Hr as <-. congruence.
  - split; [discriminate |]. intros (r & Hr & _). discriminate.
Qed.

(** X17: when the response names no encoding, the content is not decoded,
    and an exception of the text operations on it that is not a
    [ValueError] (Python 3's [TypeError]) leaves [_decode_response] as it
    is; the parser is not called. *)
Theorem _decode_response_no_encoding (response : Response object)
        (msg : string) :
  encoding response = None \/ encoding response = Some "" ->
  undecoded (strip (content response)) = Raises (TypeError msg) ->
  decode_response response = Raises (TypeError msg).
Proof.
  intros He Hu. unfold _decode_response.
  destruct He as [-> | ->]; cbn [truthy_str]; now rewrite Hu.
Qed.

End PlatformCalls.

(** ** Instances of the further properties *)

Import MoreSamples.

Lemma valid_created0 : valid created0.
Proof. unfold valid; cbn; lia. Defined.

Lemma valid_later0 : valid later0.
Proof. unfold valid; cbn; lia. Defined.

Lemma older_newer_complementary_witness :
  In "d" units
  /\ exists b,
       check_request_state P0 created0 (Some "older") (Some 400) (Some "d") 0%nat
       = (Ok b, 2%nat)
       /\ check_request_state P0 created0 (Some "newer") (Some 400) (Some "d") 0%nat
          = (Ok (negb b), 2%nat).
Proof.
  assert (H : In "d" units) by (cbn; tauto).
  split; [exact H |].
  exact (older_newer_complementary P0 created0 400 "d" 0%nat H).
Defined.

Lemma threshold_monotone_witness :
  In "h" units /\ 1 <= 9600
  /\ (fst (check_request_state P0 created0 (Some "older") (Some 9600)
                               (Some "h") 0%nat) = Ok true ->
      fst (check_request_state P0 created0 (Some "older") (Some 1)
                               (Some "h") 0%nat) = Ok true)
  /\ (fst (check_request_state P0 created0 (Some "newer") (Some 1)
                               (Some "h") 0%nat) = Ok true ->
      fst (check_request_state P0 created0 (Some "newer") (Some 9600)
                               (Some "h") 0%nat) = Ok true).
Proof.
  assert (H : In "h" units) by (cbn; tauto).
  assert (H' : 1 <= 9600) by lia.
  split; [exact H | split; [exact H' |]].
  exact (threshold_monotone P0 created0 9600 1 "h" 0%nat H H').
Defined.

Lemma year_is_twelve_months_witness :
  valid (utc_clock P0 0%nat) /\ valid created0
  /\ lt (utc_clock P0 0%nat) created0 = false
  /\ check_request_state P0 created0 (Some "older") (Some 1) (Some "y") 0%nat
     = check_request_state P0 created0 (Some "older") (Some (12 * 1))
                           (Some "m") 0%nat.
Proof.
  split; [exact valid_now0 | split; [exact valid_created0 | split; [reflexivity |]]].
  exact (year_is_twelve_months P0 created0 "older" 1 0%nat
           valid_now0 valid_created0 eq_refl).
Defined.

Lemma format_duration_future_witness :
  valid (utc_clock P0 0%nat) /\ valid later0
  /\ lt (utc_clock P0 0%nat) later0 = true
  /\ format_duration P0 later0 0%nat = (Ok "less than 1 minute", 1%nat).
Proof.
  split; [exact valid_now0 | split; [exact valid_later0 | split; [reflexivity |]]].
  exact (format_duration_future P0 later0 0%nat valid_now0 valid_later0 eq_refl).
Defined.


Lemma text_styles_ignore_witness :
  user review0 = user review1 /\ title review0 = title review1
  /\ url review0 = url review1 /\ time review0 = time review1
  /\ comments review0 = comments review1
  /\ option_map (fun lc => (author lc, created_at lc)) (last_comment review0)
     = option_map (fun lc => (author lc, created_at lc)) (last_comment review1)
  /\ fst (format P0 review0 (style_name Irc) (Some 1) (Some 2) None 0%nat)
     = fst (format P0 review1 (style_name Irc) (Some 1) (Some 2) None 0%nat).
Proof.
  repeat (split; [reflexivity |]).
  exact (text_styles_ignore P0 review0 review1 Irc (Some 1) (Some 2) None 0%nat
           eq_refl eq_refl eq_refl eq_refl eq_refl eq_refl).
Defined.

Lemma has_new_comments_monotone_witness :
  1 <= 5 /\ 5 <> 0
  /\ fst (has_new_comments P0 (Some recent0) (Some 1) 0%nat) = Ok true
  /\ fst (has_new_comments P0 (Some recent0) (Some 5) 0%nat) = Ok true.
Proof.
  assert (H1 : 1 <= 5) by lia.
  assert (H2 : 5 <> 0) by lia.
  split; [exact H1 | split; [exact H2 | split; [reflexivity |]]].
  exact (has_new_comments_monotone P0 (Some recent0) 1 5 0%nat H1 H2 eq_refl).
Defined.

Lemma _decode_response_strips_witness :
  all_space " " = true /\ all_space (String (ascii_of_N 10) "") = true
  /\ _decode_response Z loads0 decode0 undecoded0 format_bytes0
       (mkResponse (" " ++ "42" ++ String (ascii_of_N 10) "") (Some "UTF-8")
                   (Raises (ValueError "Expecting value")) (Returns tt))
     = _decode_response Z loads0 decode0 undecoded0 format_bytes0
         (mkResponse "42" (Some "UTF-8")
                     (Raises (ValueError "Expecting value")) (Returns tt)).
Proof.
  split; [reflexivity | split; [reflexivity |]].
  exact (_decode_response_strips Z loads0 decode0 undecoded0 format_bytes0
           " " (String (ascii_of_N 10) "") "42" (Some "UTF-8")
           (Raises (ValueError "Expecting value")) (Returns tt)
           eq_refl eq_refl).
Defined.

Lemma _decode_response_error_message_witness :
  _decode_response Z loads0 decode0 undecoded0 format_bytes0 broken0
  = Raises (ValueError "Invalid json content: oops")
  /\ exists shown,
       "Invalid json content: oops" = "Invalid json content: " ++ shown.
Proof.
  split; [reflexivity |].
  exact (_decode_response_error_message Z loads0 decode0 undecoded0
           format_bytes0 broken0 "Invalid json content: oops" eq_refl).
Defined.

Lemma _decode_response_gerrit_prefix_witness :
  encoding gerrit0 = Some "UTF-8" /\ "UTF-8" <> ""
  /\ decode0 (strip (content gerrit0)) "UTF-8"
     = Returns (gerrit_json_prefix ++ "42")
  /\ _decode_response Z loads0 decode0 undecoded0 format_bytes0 gerrit0
     = Returns 42.
Proof.
  assert (H : "UTF-8" <> "") by discriminate.
  split; [reflexivity | split; [exact H | split; [reflexivity |]]].
  exact (_decode_response_gerrit_prefix Z loads0 decode0 undecoded0
           format_bytes0 gerrit0 "UTF-8" "42" eq_refl H eq_refl).
Defined.

(** The Gerrit answer through [_call_api]: [json()] fails on the prefix
    and [_decode_response] reads the document. *)
Example _call_api_sample :
  _call_api Z loads0 decode0 undecoded0 format_bytes0 unit bool
            service0 "http://example.com/changes/" "GET" true
  = Returns 42.
Proof. reflexivity. Qed.

Lemma _decode_response_no_encoding_witness :
  (encoding (mkResponse (object := Z) "42" None (Returns 42) (Returns tt)) = None
   \/ encoding (mkResponse (object := Z) "42" None (Returns 42) (Returns tt))
      = Some "")
  /\ undecoded0 (strip "42")
     = Raises (TypeError "startswith first arg must be bytes or a tuple of bytes, not str")
  /\ _decode_response Z loads0 decode0 undecoded0 format_bytes0
       (mkResponse "42" None (Returns 42) (Returns tt))
     = Raises (TypeError "startswith first arg must be bytes or a tuple of bytes, not str").
Proof.
  split; [left; reflexivity | split; [reflexivity |]].
  exact (_decode_response_no_encoding Z loads0 decode0 undecoded0 format_bytes0
           (mkResponse "42" None (Returns 42) (Returns tt))
           "startswith first arg must be bytes or a tuple of bytes, not str"
           (or_introl eq_refl) eq_refl).
Defined.

Lemma older_than_years_shows_years_witness :
  1 <= 1
  /\ fst (check_request_state P0 created0 (Some "older") (Some 1) (Some "y") 0%nat)
     = Ok true
  /\ exists rest,
       fst (format_duration P0 created0 0%nat)
       = Ok (str_of_int (Dateutil.years
                           (Dateutil.relativedelta (utc_clock P0 0%nat) created0))
             ++ " year" ++ rest).
Proof.
  assert (H : 1 <= 1) by lia.
  split; [exact H | split; [reflexivity |]].
  exact (older_than_years_shows_years P0 created0 1 0%nat H eq_refl).
Defined.
